(** * msg91-py: the OTP and SMS resources

    A shallow embedding of [src/msg91/resources/otp.py] and
    [src/msg91/resources/sms.py], and the properties of their request
    construction and of their handling of HTTP responses.

    Python dictionaries keyed by strings are finite maps ([gmap string _]),
    Python exceptions are an explicit error type, and the HTTP transport
    ([httpx.get], [httpx.post]) is a function from the request to what comes
    back, threaded through a small reader/log/error monad. *)

From Stdlib Require Import ZArith String Ascii.
From stdpp Require Import base option list strings gmap fin_maps.

Set Warnings "-register-all".
Local Open Scope Z_scope.
Local Open Scope string_scope.

(** ** Python values *)

(** The values that travel in query parameters, JSON payloads and JSON
    response bodies.  A float is kept as a decimal mantissa and exponent: the
    code never computes with one. *)
Inductive pyval : Type :=
| PNone
| PBool (b : bool)
| PInt (z : Z)
| PFloat (m e : Z)
| PStr (s : string)
| PList (l : list pyval)
| PDict (d : gmap string pyval).

(** [type(v).__name__], as it appears in the text of an [AttributeError]. *)
Definition type_name (v : pyval) : string :=
  match v with
  | PNone => "NoneType"
  | PBool _ => "bool"
  | PInt _ => "int"
  | PFloat _ _ => "float"
  | PStr _ => "str"
  | PList _ => "list"
  | PDict _ => "dict"
  end.

(** [isinstance(v, dict)] *)
Definition isinstance_dict (v : pyval) : bool :=
  match v with PDict _ => true | _ => false end.

(** [d.get(key, dflt)] on a value already known to be a dict; the code
    guards every call with [isinstance(_, dict)]. *)
Definition dict_get (v : pyval) (key : string) (dflt : pyval) : pyval :=
  match v with
  | PDict d => default dflt (d !! key)
  | _ => dflt
  end.

(** Python's truth value of an object, as tested by [if x:]. *)
Definition truthy (v : pyval) : bool :=
  match v with
  | PNone => false
  | PBool b => b
  | PInt z => negb (Z.eqb z 0)
  | PFloat m _ => negb (Z.eqb m 0)
  | PStr s => negb (String.eqb s "")
  | PList l => match l with [] => false | _ => true end
  | PDict d => negb (Nat.eqb (size d) 0)
  end.

(** The Python value of an optional argument: [None] when it is not given. *)
Definition opt_str (o : option string) : pyval :=
  match o with Some s => PStr s | None => PNone end.
Definition opt_int (o : option Z) : pyval :=
  match o with Some z => PInt z | None => PNone end.
Definition opt_dict (o : option (gmap string pyval)) : pyval :=
  match o with Some d => PDict d | None => PNone end.

(** ** Strings *)

(** [str.lower] on the ASCII letters.  Strings are byte strings here; Python
    lowers other letters too, but no character outside ASCII lowers to one of
    the letters of ["validation"], the only word the result is compared
    with. *)
Definition lower_ascii (c : ascii) : ascii :=
  let n := nat_of_ascii c in
  if Nat.leb 65 n && Nat.leb n 90 then ascii_of_nat (n + 32) else c.

Fixpoint lower (s : string) : string :=
  match s with
  | EmptyString => EmptyString
  | String c s' => String (lower_ascii c) (lower s')
  end.

(** Two characters that differ at most by the case of an ASCII letter, and
    the strings that are equal up to that: "equal case-insensitively". *)
Definition same_letter (a b : ascii) : Prop :=
  a = b \/
  ((65 <= nat_of_ascii a <= 90)%nat /\ nat_of_ascii b = (nat_of_ascii a + 32)%nat) \/
  ((65 <= nat_of_ascii b <= 90)%nat /\ nat_of_ascii a = (nat_of_ascii b + 32)%nat).

Fixpoint equal_ignoring_case (s t : string) : Prop :=
  match s, t with
  | EmptyString, EmptyString => True
  | String a s', String b t' => same_letter a b /\ equal_ignoring_case s' t'
  | _, _ => False
  end.

(** ** Exceptions *)

(** The classes of [msg91.exceptions] the two resources raise. *)
Inductive msg91_class : Type :=
| MSG91Exception
| APIError
| AuthenticationError
| ValidationError.

(** Modelled from the spec: [msg91/exceptions.py] is not among the sources.
    An error of the library carries a message, an HTTP status code that is
    absent when the constructor is given none, and the response body as
    details. *)
Record msg91_error : Type := Msg91Error {
  error_class : msg91_class;
  error_message : pyval;
  error_status : option Z;
  error_details : option pyval
}.

(** What a call can raise: Python's own [ValueError] and [AttributeError],
    [httpx.RequestError] (with [str(e)]), any other exception that comes out
    of the transport, and the library's errors. *)
Inductive exn : Type :=
| ValueError (msg : string)
| AttributeError (msg : string)
| RequestError (msg : string)
| OtherException (name msg : string)
| Msg91 (e : msg91_error).

Inductive outcome (A : Type) : Type :=
| Return (a : A)
| Raise (e : exn).
Arguments Return {A} a.
Arguments Raise {A} e.

(** ** HTTP exchange *)

Inductive http_method : Type := GET | POST.

(** The arguments of one [httpx.get] or [httpx.post] call: an argument that
    is not passed is [None]. *)
Record request : Type := Request {
  req_method : http_method;
  req_url : string;
  req_params : option (gmap string pyval);
  req_json : option (gmap string pyval);
  req_headers : option (gmap string string);
  req_timeout : Z
}.

(** What the code reads of an [httpx.Response]: [json_body] is [None] when
    [response.json()] raises [ValueError]. *)
Record response : Type := Response {
  status_code : Z;
  is_success : bool;
  json_body : option pyval;
  text : string
}.

(** The network: what [httpx] does with a request, a response or an
    exception. *)
Definition transport : Type := request -> outcome response.

(** Computations that read the transport, log the requests they issue and
    may raise. *)
Definition M (A : Type) : Type :=
  transport -> list request -> list request * outcome A.

#[global] Instance M_ret : MRet M := fun A a _ log => (log, Return a).
#[global] Instance M_bind : MBind M := fun A B k c net log =>
  match c net log with
  | (log', Return a) => k a net log'
  | (log', Raise e) => (log', Raise e)
  end.

Definition raise {A : Type} (e : exn) : M A := fun _ log => (log, Raise e).

(** [try: c  except <clause>: handler]: the handler answers [None] for an
    exception its clause does not match, which then propagates. *)
Definition try_except {A : Type} (c : M A) (handler : exn -> option (M A)) : M A :=
  fun net log =>
    match c net log with
    | (log', Return a) => (log', Return a)
    | (log', Raise e) =>
        match handler e with
        | Some h => h net log'
        | None => (log', Raise e)
        end
    end.

(** [httpx.get(url, params=params, timeout=timeout)] *)
Definition httpx_get (url : string) (params : gmap string pyval) (timeout : Z)
  : M response :=
  fun net log =>
    let req := Request GET url (Some params) None None timeout in
    ((log ++ [req])%list, net req).

(** [httpx.post(url, json=payload, headers=headers, timeout=timeout)] *)
Definition httpx_post (url : string) (payload : gmap string pyval)
    (headers : gmap string string) (timeout : Z) : M response :=
  fun net log =>
    let req := Request POST url None (Some payload) (Some headers) timeout in
    ((log ++ [req])%list, net req).

(** [response.json()] *)
Definition response_json (r : response) : M pyval :=
  match json_body r with
  | Some v => mret v
  | None => raise (ValueError "Expecting value")
  end.

(** [v.lower()]: only a [str] has the method. *)
Definition py_lower (v : pyval) : M string :=
  match v with
  | PStr s => mret (lower s)
  | _ => raise (AttributeError
           ("'" +:+ type_name v +:+ "' object has no attribute 'lower'"))
  end.

(** The running of a call against a network, from an empty log: the requests
    it issued and how it ended. *)
Definition issued {A : Type} (c : M A) (net : transport) : list request :=
  fst (c net []).
Definition result {A : Type} (c : M A) (net : transport) : outcome A :=
  snd (c net []).

(** ** The client and the shared handling of a response *)

(** Modelled from the spec: the client facade and its HTTP client
    ([msg91/client.py], [msg91/resources/base.py]) are not among the sources.
    A resource holds the HTTP client, which holds the authentication key. *)
Record HTTPClient : Type := { auth_key : string }.

Record BaseResource : Type := { http_client : HTTPClient }.

(** [{"raw_content": response.text}] *)
Definition raw_content (r : response) : pyval :=
  PDict {[ "raw_content" := PStr (text r) ]}.

(** The block that follows the [httpx] call in [OTPResource.send]
    (otp.py 72-108), [verify] (148-184), [resend] (224-260) and in
    [SMSResource.send] (sms.py 92-128): the four copies differ in the default
    message only. *)
Definition handle_response (default_message : string) (response : response)
  : M pyval :=
  response_data ← try_except (response_json response)
    (fun e => match e with
              | ValueError _ => Some (mret (raw_content response))
              | _ => None
              end);
  if negb (is_success response) then
    error_type ←
      (if isinstance_dict response_data
       then py_lower (dict_get response_data "type" (PStr ""))
       else mret "");
    let message :=
      if isinstance_dict response_data
      then dict_get response_data "message" (PStr default_message)
      else PStr default_message in
    if Z.eqb (status_code response) 401 then
      raise (Msg91 (Msg91Error AuthenticationError message
                      (Some (status_code response)) (Some response_data)))
    else if Z.eqb (status_code response) 400 || String.eqb error_type "validation" then
      raise (Msg91 (Msg91Error ValidationError message
                      (Some (status_code response)) (Some response_data)))
    else
      raise (Msg91 (Msg91Error APIError message
                      (Some (status_code response)) (Some response_data)))
  else mret response_data.

(** [except httpx.RequestError as e:
       raise MSG91Exception(f"Network error: {str(e)}") from e] *)
Definition on_request_error (e : exn) : option (M pyval) :=
  match e with
  | RequestError msg =>
      Some (raise (Msg91 (Msg91Error MSG91Exception
                            (PStr ("Network error: " +:+ msg)) None None)))
  | _ => None
  end.

(** [for key, value in kwargs.items(): params[key] = value] *)
Definition add_kwargs (kwargs params : gmap string pyval) : gmap string pyval :=
  map_fold (fun key value params => <[key := value]> params) params kwargs.

(** ** [OTPResource] (otp.py) *)

Definition otp_send (self : BaseResource) (mobile : string)
    (message sender otp : option string) (otp_expiry otp_length : option Z)
    (kwargs : gmap string pyval) : M pyval :=
  let otp_url := "http://api.msg91.com/api/sendotp.php" in
  let params : gmap string pyval :=
    <["mobile" := PStr mobile]>
      (<["authkey" := PStr (auth_key (http_client self))]> ∅) in
  let params :=
    if truthy (opt_str message) then <["message" := opt_str message]> params
    else params in
  let params :=
    if truthy (opt_str sender) then <["sender" := opt_str sender]> params
    else params in
  let params :=
    if truthy (opt_str otp) then <["otp" := opt_str otp]> params
    else params in
  let params :=
    if truthy (opt_int otp_expiry) then <["otp_expiry" := opt_int otp_expiry]> params
    else params in
  params ←
    (match otp_length with
     | Some n =>
         if truthy (PInt n) then
           if negb (Z.leb 4 n && Z.leb n 9) then
             raise (ValueError "OTP length must be between 4 and 9")
           else mret (<["otp_length" := PInt n]> params)
         else mret params
     | None => mret params
     end);
  let params := add_kwargs kwargs params in
  try_except
    (response ← httpx_get otp_url params 30;
     handle_response "OTP sending failed" response)
    on_request_error.

Definition otp_verify (self : BaseResource) (mobile otp : string)
    (kwargs : gmap string pyval) : M pyval :=
  let verify_url := "http://api.msg91.com/api/verifyRequestOTP.php" in
  let params : gmap string pyval :=
    <["otp" := PStr otp]>
      (<["mobile" := PStr mobile]>
         (<["authkey" := PStr (auth_key (http_client self))]> ∅)) in
  let params := add_kwargs kwargs params in
  try_except
    (response ← httpx_get verify_url params 30;
     handle_response "OTP verification failed" response)
    on_request_error.

Definition otp_resend (self : BaseResource) (mobile retrytype : string)
    (kwargs : gmap string pyval) : M pyval :=
  let retry_url := "http://api.msg91.com/api/retryotp.php" in
  let params : gmap string pyval :=
    <["retrytype" := PStr retrytype]>
      (<["mobile" := PStr mobile]>
         (<["authkey" := PStr (auth_key (http_client self))]> ∅)) in
  let params := add_kwargs kwargs params in
  try_except
    (response ← httpx_get retry_url params 30;
     handle_response "OTP resend failed" response)
    on_request_error.

(** ** [SMSResource] (sms.py) *)

(** [mobile: Union[str, List[str]]] *)
Inductive mobile_arg : Type :=
| MobileStr (s : string)
| MobileList (l : list string).

(** ["1" if flag else "0"] *)
Definition flag_str (flag : bool) : pyval := PStr (if flag then "1" else "0").

Definition sms_send (self : BaseResource) (mobile : mobile_arg)
    (message sender route : string) (country : option string)
    (flash unicode : option bool) (scheduled_datetime campaign : option string)
    (kwargs : gmap string pyval) : M pyval :=
  let sms_url := "http://api.msg91.com/api/v2/sendsms" in
  let mobile_str :=
    match mobile with
    | MobileList l => String.concat "," l
    | MobileStr s => s
    end in
  let payload : gmap string pyval :=
    <["response" := PStr "json"]>
      (<["route" := PStr route]>
         (<["sender" := PStr sender]>
            (<["message" := PStr message]>
               (<["mobiles" := PStr mobile_str]>
                  (<["authkey" := PStr (auth_key (http_client self))]> ∅))))) in
  let payload :=
    match country with
    | Some c => <["country" := PStr c]> payload
    | None => payload
    end in
  let payload :=
    match flash with
    | Some b => <["flash" := flag_str b]> payload
    | None => payload
    end in
  let payload :=
    match unicode with
    | Some b => <["unicode" := flag_str b]> payload
    | None => payload
    end in
  let payload :=
    if truthy (opt_str scheduled_datetime)
    then <["scheduledatetime" := opt_str scheduled_datetime]> payload
    else payload in
  let payload :=
    if truthy (opt_str campaign) then <["campaign" := opt_str campaign]> payload
    else payload in
  let payload := add_kwargs kwargs payload in
  let headers : gmap string string :=
    <["authkey" := auth_key (http_client self)]>
      (<["Content-Type" := "application/json"]> ∅) in
  try_except
    (response ← httpx_post sms_url payload headers 30;
     handle_response "SMS sending failed" response)
    on_request_error.

(** [SMSResource._format_recipients] *)
Definition _format_recipients (mobile : mobile_arg)
    (variables : option (gmap string pyval)) : list pyval :=
  let mobile :=
    match mobile with
    | MobileStr s => [s]
    | MobileList l => l
    end in
  foldl (fun recipients number =>
           let recipient : gmap string pyval := <["mobile" := PStr number]> ∅ in
           let recipient :=
             if truthy (opt_dict variables)
             then <["variables" := opt_dict variables]> recipient
             else recipient in
           (recipients ++ [PDict recipient])%list)
        [] mobile.

(** The payload [send_template] builds (sms.py 157-170) and hands to
    [self.http_client.post("flow", json_data=payload)]. *)
Definition send_template_payload (template_id : string) (mobile : mobile_arg)
    (variables : option (gmap string pyval)) (sender_id : option string)
    (short_url : option bool) (kwargs : gmap string pyval) : gmap string pyval :=
  let payload : gmap string pyval :=
    <["recipients" := PList (_format_recipients mobile variables)]>
      (<["template_id" := PStr template_id]> ∅) in
  let payload :=
    if truthy (opt_str sender_id) then <["sender" := opt_str sender_id]> payload
    else payload in
  let payload :=
    match short_url with
    | Some b => <["short_url" := flag_str b]> payload
    | None => payload
    end in
  add_kwargs kwargs payload.

(** The payload of [get_logs] (sms.py 206-216) and the parameters of
    [get_analytics] (236-246): the same construction. *)
Definition date_filter (start_date end_date : option string)
    (kwargs : gmap string pyval) : gmap string pyval :=
  let payload : gmap string pyval := ∅ in
  let payload :=
    if truthy (opt_str start_date) then <["start_date" := opt_str start_date]> payload
    else payload in
  let payload :=
    if truthy (opt_str end_date) then <["end_date" := opt_str end_date]> payload
    else payload in
  add_kwargs kwargs payload.

(** The three operations that go through [self.http_client.post] and
    [self.http_client.get], methods of the HTTP client that are not among the
    sources and are parameters here. *)
Section Delegated.
Variable post : HTTPClient -> string -> gmap string pyval -> M pyval.
Variable get : HTTPClient -> string -> gmap string pyval -> M pyval.

Definition send_template (self : BaseResource) (template_id : string)
    (mobile : mobile_arg) (variables : option (gmap string pyval))
    (sender_id : option string) (short_url : option bool)
    (kwargs : gmap string pyval) : M pyval :=
  post (http_client self) "flow"
    (send_template_payload template_id mobile variables sender_id short_url kwargs).

Definition get_logs (self : BaseResource) (start_date end_date : option string)
    (kwargs : gmap string pyval) : M pyval :=
  post (http_client self) "report/logs/p/sms"
    (date_filter start_date end_date kwargs).

Definition get_analytics (self : BaseResource) (start_date end_date : option string)
    (kwargs : gmap string pyval) : M pyval :=
  get (http_client self) "report/analytics/p/sms"
    (date_filter start_date end_date kwargs).
End Delegated.

(** ** Calls *)

(** A call of one of the four operations that talk to [httpx] themselves,
    with its arguments. *)
Inductive call : Type :=
| OtpSend (mobile : string) (message sender otp : option string)
    (otp_expiry otp_length : option Z) (kwargs : gmap string pyval)
| OtpVerify (mobile otp : string) (kwargs : gmap string pyval)
| OtpResend (mobile retrytype : string) (kwargs : gmap string pyval)
| SmsSend (mobile : mobile_arg) (message sender route : string)
    (country : option string) (flash unicode : option bool)
    (scheduled_datetime campaign : option string) (kwargs : gmap string pyval).

Definition run (self : BaseResource) (c : call) : M pyval :=
  match c with
  | OtpSend mobile message sender otp otp_expiry otp_length kwargs =>
      otp_send self mobile message sender otp otp_expiry otp_length kwargs
  | OtpVerify mobile otp kwargs => otp_verify self mobile otp kwargs
  | OtpResend mobile retrytype kwargs => otp_resend self mobile retrytype kwargs
  | SmsSend mobile message sender route country flash unicode
      scheduled_datetime campaign kwargs =>
      sms_send self mobile message sender route country flash unicode
        scheduled_datetime campaign kwargs
  end.

(** The extra keyword parameters of a call. *)
Definition kwargs_of (c : call) : gmap string pyval :=
  match c with
  | OtpSend _ _ _ _ _ _ kwargs => kwargs
  | OtpVerify _ _ kwargs => kwargs
  | OtpResend _ _ kwargs => kwargs
  | SmsSend _ _ _ _ _ _ _ _ _ kwargs => kwargs
  end.

(** The default message each operation passes to [response_data.get]. *)
Definition default_message (c : call) : string :=
  match c with
  | OtpSend _ _ _ _ _ _ _ => "OTP sending failed"
  | OtpVerify _ _ _ => "OTP verification failed"
  | OtpResend _ _ _ => "OTP resend failed"
  | SmsSend _ _ _ _ _ _ _ _ _ _ => "SMS sending failed"
  end.

(** The names a Python caller cannot pass through [**kwargs]: a keyword
    that names a declared parameter is bound to that parameter. *)
Definition parameters (c : call) : list string :=
  match c with
  | OtpSend _ _ _ _ _ _ _ =>
      ["mobile"; "message"; "sender"; "otp"; "otp_expiry"; "otp_length"]
  | OtpVerify _ _ _ => ["mobile"; "otp"]
  | OtpResend _ _ _ => ["mobile"; "retrytype"]
  | SmsSend _ _ _ _ _ _ _ _ _ _ =>
      ["mobile"; "message"; "sender"; "route"; "country"; "flash"; "unicode";
       "scheduled_datetime"; "campaign"]
  end.
Definition send_template_parameters : list string :=
  ["template_id"; "mobile"; "variables"; "sender_id"; "short_url"].

Definition keyword_free (names : list string) (kwargs : gmap string pyval) : Prop :=
  Forall (fun name => kwargs !! name = None) names.

(** The mapping a request carries: its JSON payload, or else its query
    parameters. *)
Definition req_fields (req : request) : gmap string pyval :=
  match req_json req with
  | Some payload => payload
  | None => default ∅ (req_params req)
  end.

(** The response body as the code sees it after [response.json()] and its
    fallback. *)
Definition parsed_body (r : response) : pyval :=
  match json_body r with
  | Some v => v
  | None => raw_content r
  end.

(** What the claims call "the body's message field, or the default". *)
Definition message_of (dflt : string) (body : pyval) : pyval :=
  match body with
  | PDict d => match d !! "message" with Some m => m | None => PStr dflt end
  | _ => PStr dflt
  end.

(** The body is not a mapping, or its [type] field is absent or a string:
    the bodies on which [.lower()] is defined. *)
Definition type_is_text (body : pyval) : Prop :=
  match body with
  | PDict d => match d !! "type" with
               | Some (PStr _) | None => True
               | Some _ => False
               end
  | _ => True
  end.

(** The body is a mapping whose [type] field is a string equal to
    ["validation"] up to case. *)
Definition validation_marker (body : pyval) : Prop :=
  match body with
  | PDict d => match d !! "type" with
               | Some (PStr s) => equal_ignoring_case s "validation"
               | _ => False
               end
  | _ => False
  end.

(** The client of the test suite: [Client("test_auth_key")]. *)
Definition test_client : BaseResource :=
  {| http_client := {| auth_key := "test_auth_key" |} |}.

(** ** Functional reading of the response handling *)

(** [error_type] of a failing response: the lowered [type] field of a
    mapping, the empty string without one, and [AttributeError] when the
    field is not a string. *)
Definition error_type_of (body : pyval) : outcome string :=
  match body with
  | PDict d =>
      match d !! "type" with
      | Some (PStr s) => Return (lower s)
      | Some v => Raise (AttributeError
                    ("'" +:+ type_name v +:+ "' object has no attribute 'lower'"))
      | None => Return ""
      end
  | _ => Return ""
  end.

(** The class chosen from the status code and [error_type], in the order of
    the code's [if]/[elif]/[else]. *)
Definition error_class_for (status : Z) (error_type : string) : msg91_class :=
  if Z.eqb status 401 then AuthenticationError
  else if Z.eqb status 400 || String.eqb error_type "validation" then ValidationError
  else APIError.

Definition classify (default_message : string) (r : response) : outcome pyval :=
  if is_success r then Return (parsed_body r)
  else
    match error_type_of (parsed_body r) with
    | Return error_type =>
        Raise (Msg91 (Msg91Error (error_class_for (status_code r) error_type)
                        (message_of default_message (parsed_body r))
                        (Some (status_code r)) (Some (parsed_body r))))
    | Raise e => Raise e
    end.

(** What an operation makes of what the transport gave back. *)
Definition exchange_outcome (default_message : string) (o : outcome response)
  : outcome pyval :=
  match o with
  | Return r => classify default_message r
  | Raise (RequestError msg) =>
      Raise (Msg91 (Msg91Error MSG91Exception
                      (PStr ("Network error: " +:+ msg)) None None))
  | Raise e => Raise e
  end.

Ltac case_fields :=
  repeat match goal with
         | |- context [if truthy ?v then _ else _] => destruct (truthy v)
         | |- context [match ?o with Some _ => _ | None => _ end] =>
             is_var o; destruct o
         end.

Ltac unfold_monad :=
  unfold mbind, M_bind, mret, M_ret, raise, try_except in *.

(** The local check of [otp.send]: the length is not given, or is zero (which
    [if otp_length:] takes for not given), or lies in 4..9. *)
Definition preflight_ok (c : call) : bool :=
  match c with
  | OtpSend _ _ _ _ _ (Some n) _ => Z.eqb n 0 || (Z.leb 4 n && Z.leb n 9)
  | _ => true
  end.

(** The mobile numbers a call targets. *)
Definition numbers (mobile : mobile_arg) : list string :=
  match mobile with
  | MobileStr s => [s]
  | MobileList l => l
  end.

(** The payload field of an optional flag, as the provider expects it. *)
Definition flag_field (flag : option bool) : option pyval :=
  match flag with
  | Some true => Some (PStr "1")
  | Some false => Some (PStr "0")
  | None => None
  end.

(** ** Sample transports and responses *)

Definition respond (r : response) : transport := fun _ => Return r.
Definition refuse (cause : string) : transport := fun _ => Raise (RequestError cause).

(** The body of the successful exchange in [test_send_otp_basic]. *)
Definition success_body : pyval :=
  PDict (<["message" := PStr "3763646c3058373530393938"]>
           (<["type" := PStr "success"]> ∅)).

(** [otp.send(mobile="919999999999")] and the request it issues. *)
Definition plain_otp_send : call :=
  OtpSend "919999999999" None None None None None ∅.
Definition plain_otp_request : request :=
  Request GET "http://api.msg91.com/api/sendotp.php"
    (Some (<["mobile" := PStr "919999999999"]>
             (<["authkey" := PStr "test_auth_key"]> ∅)))
    None None 30.

(** A failing response whose body has [null] for its [type] field. *)
Definition null_type_body (message : string) : pyval :=
  PDict (<["message" := PStr message]> (<["type" := PNone]> ∅)).

(** The value a run sends under [key], in the payload or the query
    parameters of its request. *)
Definition sent (c : M pyval) (net : transport) (key : string) : option pyval :=
  match issued c net with
  | req :: _ => req_fields req !! key
  | [] => None
  end.

Definition is_otp (c : call) : bool :=
  match c with
  | SmsSend _ _ _ _ _ _ _ _ _ _ => false
  | _ => true
  end.

(** [sms.send] of the test suite, to two numbers, with extra parameters. *)
Definition two_numbers : mobile_arg := MobileList ["919000000001"; "919000000002"].
Definition sms_to_two (kwargs : gmap string pyval) : M pyval :=
  sms_send test_client two_numbers "Test SMS message" "SENDER" "4"
    None None None None None kwargs.

(** Two template variables, as a caller passes them. *)
Definition two_variables : gmap string pyval :=
  <["name" := PStr "Asha"]> (<["code" := PStr "1234"]> ∅).

(** [otp.send(mobile="919999999999", authkey="other_key")] and the request
    it issues. *)
Definition override_otp_send : call :=
  OtpSend "919999999999" None None None None None {[ "authkey" := PStr "other_key" ]}.
Definition override_otp_request : request :=
  Request GET "http://api.msg91.com/api/sendotp.php"
    (Some (<["mobile" := PStr "919999999999"]>
             (<["authkey" := PStr "other_key"]> ∅)))
    None None 30.

(** ** Vocabulary of the further properties *)

(** The same call without its extra keyword parameters. *)
Definition without_extras (c : call) : call :=
  match c with
  | OtpSend mobile message sender otp otp_expiry otp_length _ =>
      OtpSend mobile message sender otp otp_expiry otp_length ∅
  | OtpVerify mobile otp _ => OtpVerify mobile otp ∅
  | OtpResend mobile retrytype _ => OtpResend mobile retrytype ∅
  | SmsSend mobile message sender route country flash unicode
      scheduled_datetime campaign _ =>
      SmsSend mobile message sender route country flash unicode
        scheduled_datetime campaign ∅
  end.

(** The keys each operation writes itself, before the extra parameters. *)
Definition standard_fields (c : call) : list string :=
  match c with
  | OtpSend _ _ _ _ _ _ _ =>
      ["authkey"; "mobile"; "message"; "sender"; "otp"; "otp_expiry"; "otp_length"]
  | OtpVerify _ _ _ => ["authkey"; "mobile"; "otp"]
  | OtpResend _ _ _ => ["authkey"; "mobile"; "retrytype"]
  | SmsSend _ _ _ _ _ _ _ _ _ _ =>
      ["authkey"; "mobiles"; "message"; "sender"; "route"; "response"; "country";
       "flash"; "unicode"; "scheduledatetime"; "campaign"]
  end.

(** The field of an optional string argument tested with [if arg:]: sent
    when the argument is given and not empty. *)
Definition nonempty_field (o : option string) : option pyval :=
  match o with
  | Some s => if String.eqb s "" then None else Some (PStr s)
  | None => None
  end.

(** The field of an optional integer argument tested with [if arg:]. *)
Definition nonzero_field (o : option Z) : option pyval :=
  match o with
  | Some z => if Z.eqb z 0 then None else Some (PInt z)
  | None => None
  end.

(** A string without a comma, and the pieces of a string between its
    commas: how a receiver reads the [mobiles] field back. *)
Fixpoint comma_free (s : string) : bool :=
  match s with
  | EmptyString => true
  | String c s' => negb (Ascii.eqb c ",") && comma_free s'
  end.

Fixpoint split_commas (s : string) : list string :=
  match s with
  | EmptyString => [EmptyString]
  | String c s' =>
      if Ascii.eqb c "," then EmptyString :: split_commas s'
      else match split_commas s' with
           | piece :: pieces => String c piece :: pieces
           | [] => [String c EmptyString]
           end
  end.

(** The body of [test_validation_error], and a response that is not JSON. *)
Definition validation_body : pyval :=
  PDict (<["message" := PStr "Invalid mobile number"]>
           (<["type" := PStr "validation"]> ∅)).
Definition gateway_timeout : response :=
  Response 504 false None "<html>Gateway Timeout</html>".

(** [otp.send] with every option of [test_send_otp_with_options] but an
    empty message and a zero expiry, and the request it issues. *)
Definition sparse_otp_send : call :=
  OtpSend "919999999999" (Some "") (Some "MYAPP") None (Some 0) (Some 6)
    {[ "extra_param" := PStr "value" ]}.
Definition sparse_otp_request : request :=
  Request GET "http://api.msg91.com/api/sendotp.php"
    (Some (<["extra_param" := PStr "value"]>
             (<["otp_length" := PInt 6]>
                (<["sender" := PStr "MYAPP"]>
                   (<["mobile" := PStr "919999999999"]>
                      (<["authkey" := PStr "test_auth_key"]> ∅))))))
    None None 30.

(** [sms.send] to two numbers as in [test_sms_send], and the same call with
    an extra keyword [mobiles]. *)
Definition plain_sms_send : call :=
  SmsSend two_numbers "Test SMS message" "SENDER" "4" None None None None None ∅.
Definition override_sms_send : call :=
  SmsSend two_numbers "Test SMS message" "SENDER" "4" None None None None None
    {[ "mobiles" := PStr "919000000003" ]}.

(** A successful response whose body is not JSON, as in
    [test_send_otp_invalid_json_response]. *)
Definition invalid_json_success : response :=
  Response 200 true None "Invalid response".

(** * Properties *)

(** ** Extra keyword parameters *)

(** The loop over [kwargs.items()] leaves the extra parameters on top of the
    fields set before it. *)
Lemma add_kwargs_union (kwargs params : gmap string pyval) :
  add_kwargs kwargs params = kwargs ∪ params.
Proof.
  unfold add_kwargs.
  apply (map_fold_weak_ind (fun r (m : gmap string pyval) => r = m ∪ params)).
  - by rewrite (left_id_L ∅ (∪)).
  - intros key value m r _ ->. by rewrite insert_union_l.
Qed.

Lemma add_kwargs_extra (kwargs params : gmap string pyval) key value :
  kwargs !! key = Some value -> add_kwargs kwargs params !! key = Some value.
Proof. intros H. rewrite add_kwargs_union. by apply lookup_union_Some_l. Qed.

Lemma add_kwargs_standard (kwargs params : gmap string pyval) key :
  kwargs !! key = None -> add_kwargs kwargs params !! key = params !! key.
Proof. intros H. rewrite add_kwargs_union. by apply lookup_union_r. Qed.

(** ** Lower case *)

Lemma lower_ascii_letter (c l : ascii) :
  (97 <= nat_of_ascii l <= 122)%nat ->
  lower_ascii c = l <-> same_letter c l.
Proof.
  intros Hl. unfold same_letter, lower_ascii.
  destruct (Nat.leb 65 (nat_of_ascii c) && Nat.leb (nat_of_ascii c) 90) eqn:E.
  - apply andb_prop in E as [E1%Nat.leb_le E2%Nat.leb_le]. split.
    + intros <-. right. left. split; [lia|].
      rewrite nat_ascii_embedding; lia.
    + intros [-> | [[_ H] | [H _]]]; [lia | | lia].
      rewrite <- H. apply ascii_nat_embedding.
  - apply andb_false_iff in E. split.
    + intros ->. by left.
    + intros [-> | [[H _] | [H _]]]; [done | | lia].
      destruct E as [E%Nat.leb_gt | E%Nat.leb_gt]; lia.
Qed.

(** [s.lower() == "validation"] is equality with ["validation"] up to
    case. *)
Lemma lower_validation (s : string) :
  lower s = "validation" <-> equal_ignoring_case s "validation".
Proof.
  assert (Hstep : forall l t, (97 <= nat_of_ascii l <= 122)%nat ->
            (forall s', lower s' = t <-> equal_ignoring_case s' t) ->
            forall s', lower s' = String l t <-> equal_ignoring_case s' (String l t)).
  { intros l t Hl IH [|c s']; simpl; [split; [intros [=] | intros []]|].
    rewrite <- IH, <- (lower_ascii_letter c l Hl).
    split; [intros [= -> ->]; done | intros [-> ->]; done]. }
  revert s.
  do 10 (apply Hstep; [vm_compute; lia|]).
  intros [|c s']; simpl; [done | split; [discriminate | intros []]].
Qed.

(** ** The handling of a response, as a function *)

Lemma handle_response_classify d r net log :
  handle_response d r net log = (log, classify d r).
Proof.
  unfold handle_response, classify, response_json, parsed_body.
  destruct r as [status ok body txt]; simpl.
  destruct body as [v|]; unfold_monad; simpl.
  - destruct ok; simpl; [done|].
    destruct v as [ | | | | | |dd]; simpl; unfold error_class_for;
      try (destruct (Z.eqb status 401), (Z.eqb status 400); done).
    unfold py_lower.
    destruct (dd !! "type") as [[]|]; simpl; unfold_monad;
      destruct (dd !! "message"); simpl;
      destruct (Z.eqb status 401), (Z.eqb status 400); simpl; try done;
      by destruct (String.eqb _ _).
  - destruct ok; simpl; [done|].
    unfold py_lower, raw_content; simpl.
    rewrite !lookup_singleton_ne by done. simpl. unfold error_class_for.
    by destruct (Z.eqb status 401), (Z.eqb status 400).
Qed.

Lemma classify_not_request_error d r msg : classify d r <> Raise (RequestError msg).
Proof.
  unfold classify. destruct (is_success r); [done|].
  unfold error_type_of.
  destruct (parsed_body r) as [ | | | | | |dd]; try done.
  by destruct (dd !! "type") as [[]|].
Qed.

Lemma get_exchange url params d net log :
  try_except (response ← httpx_get url params 30; handle_response d response)
    on_request_error net log
  = ((log ++ [Request GET url (Some params) None None 30])%list,
     exchange_outcome d (net (Request GET url (Some params) None None 30))).
Proof.
  unfold_monad. unfold httpx_get, exchange_outcome.
  destruct (net _) as [r|e].
  - rewrite handle_response_classify.
    pose proof (classify_not_request_error d r) as Hne.
    destruct (classify d r) as [v|e]; [done|].
    destruct e; simpl; try done. by destruct (Hne msg).
  - by destruct e.
Qed.

Lemma post_exchange url payload headers d net log :
  try_except (response ← httpx_post url payload headers 30; handle_response d response)
    on_request_error net log
  = ((log ++ [Request POST url None (Some payload) (Some headers) 30])%list,
     exchange_outcome d (net (Request POST url None (Some payload) (Some headers) 30))).
Proof.
  unfold_monad. unfold httpx_post, exchange_outcome.
  destruct (net _) as [r|e].
  - rewrite handle_response_classify.
    pose proof (classify_not_request_error d r) as Hne.
    destruct (classify d r) as [v|e]; [done|].
    destruct e; simpl; try done. by destruct (Hne msg).
  - by destruct e.
Qed.

(** ** The shape of a run *)

Lemma bind_ret {A B : Type} (a : A) (k : A -> M B) : (mret a ≫= k) = k a.
Proof. reflexivity. Qed.

Lemma bind_raise {A B : Type} (e : exn) (k : A -> M B) : (raise e ≫= k) = raise e.
Proof. reflexivity. Qed.

(** A call that passes the local check issues exactly one request, the same
    whatever the network does, and ends as the exchange does. *)
Lemma run_exchange self c :
  preflight_ok c = true ->
  exists req, forall net,
    run self c net [] = ([req], exchange_outcome (default_message c) (net req)).
Proof.
  destruct c as [? ? ? ? ? otp_length ?| | |]; simpl; intros Hok;
    unfold otp_send, otp_verify, otp_resend, sms_send;
    try (eexists; intros net; rewrite ?get_exchange, ?post_exchange; reflexivity).
  destruct otp_length as [n|]; simpl.
  - destruct (Z.eqb n 0); simpl in *.
    + rewrite bind_ret. eexists; intros net. by rewrite get_exchange.
    + rewrite Hok; simpl. rewrite bind_ret.
      eexists; intros net. by rewrite get_exchange.
  - rewrite bind_ret. eexists; intros net. by rewrite get_exchange.
Qed.

(** A call that fails the local check raises [ValueError] and issues
    nothing. *)
Lemma run_rejected self c net :
  preflight_ok c = false ->
  run self c net [] = ([], Raise (ValueError "OTP length must be between 4 and 9")).
Proof.
  destruct c as [? ? ? ? ? [n|] ?| | |]; simpl; try done.
  intros [H0 Hr]%orb_false_iff. unfold otp_send, truthy.
  rewrite H0, Hr. simpl. by rewrite bind_raise.
Qed.

Lemma issued_request self c net req :
  issued (run self c) net = [req] ->
  preflight_ok c = true /\
  forall net', run self c net' [] =
                 ([req], exchange_outcome (default_message c) (net' req)).
Proof.
  unfold issued. destruct (preflight_ok c) eqn:Hok.
  - destruct (run_exchange self c Hok) as [req' Hrun].
    rewrite Hrun. simpl. by intros [= <-].
  - by rewrite run_rejected.
Qed.

(** A call that passes the local check does issue its request. *)
Lemma request_issued self c net :
  preflight_ok c = true -> exists req, issued (run self c) net = [req].
Proof.
  intros Hok. destruct (run_exchange self c Hok) as [req Hrun].
  exists req. unfold issued. by rewrite Hrun.
Qed.

Lemma issued_result self c net req :
  issued (run self c) net = [req] ->
  result (run self c) net = exchange_outcome (default_message c) (net req).
Proof.
  intros [_ Hrun]%issued_request. unfold result. by rewrite Hrun.
Qed.

(** ** Successful responses *)

(** C3.  Every operation ([otp.send] that passes its local check,
    [otp.verify], [otp.resend], [sms.send]) issues its request, and when the
    transport answers it with a successful response the operation returns the
    parsed JSON body itself, whatever its shape, and the mapping
    [{"raw_content": <body text>}] when the body is not JSON. *)
Theorem success_returns_body self c net :
  preflight_ok c = true ->
  exists req,
    issued (run self c) net = [req] /\
    forall r,
      net req = Return r ->
      is_success r = true ->
      (forall v, json_body r = Some v -> result (run self c) net = Return v) /\
      (json_body r = None ->
       result (run self c) net = Return (PDict {[ "raw_content" := PStr (text r) ]})).
Proof.
  intros Hok. destruct (request_issued self c net Hok) as [req Hreq].
  exists req. split; [done|]. intros r Hnet Hsucc.
  rewrite (issued_result _ _ _ _ Hreq), Hnet. simpl.
  unfold classify, parsed_body. rewrite Hsucc.
  split; [intros v -> | intros ->]; done.
Qed.

Lemma success_returns_body_witness :
  (exists req,
     issued (run test_client plain_otp_send)
       (respond (Response 200 true (Some success_body) "")) = [req] /\
     forall r,
       respond (Response 200 true (Some success_body) "") req = Return r ->
       is_success r = true ->
       (forall v, json_body r = Some v ->
          result (run test_client plain_otp_send)
            (respond (Response 200 true (Some success_body) "")) = Return v) /\
       (json_body r = None ->
        result (run test_client plain_otp_send)
          (respond (Response 200 true (Some success_body) ""))
        = Return (PDict {[ "raw_content" := PStr (text r) ]}))) /\
  (exists req,
     issued (run test_client plain_sms_send) (respond invalid_json_success) = [req] /\
     forall r,
       respond invalid_json_success req = Return r ->
       is_success r = true ->
       (forall v, json_body r = Some v ->
          result (run test_client plain_sms_send) (respond invalid_json_success)
          = Return v) /\
       (json_body r = None ->
        result (run test_client plain_sms_send) (respond invalid_json_success)
        = Return (PDict {[ "raw_content" := PStr (text r) ]}))).
Proof.
  split.
  - apply (success_returns_body test_client plain_otp_send
             (respond (Response 200 true (Some success_body) ""))).
    reflexivity.
  - apply (success_returns_body test_client plain_sms_send
             (respond invalid_json_success)).
    reflexivity.
Defined.

(** The runs of [test_send_otp_basic] and [test_sms_send], and [sms.send]
    answered with a body that is not JSON. *)
Example successful_runs :
  result (run test_client plain_otp_send)
    (respond (Response 200 true (Some success_body) "")) = Return success_body /\
  result (run test_client plain_sms_send)
    (respond (Response 200 true (Some success_body) "")) = Return success_body /\
  result (run test_client plain_sms_send) (respond invalid_json_success)
  = Return (PDict {[ "raw_content" := PStr "Invalid response" ]}).
Proof. repeat split; reflexivity. Qed.

(** The run of [test_send_otp_invalid_json_response]. *)
Example invalid_json_response :
  result (run test_client plain_otp_send)
    (respond (Response 200 true None "Invalid response"))
  = Return (PDict {[ "raw_content" := PStr "Invalid response" ]}).
Proof. reflexivity. Qed.

(** ** Transport failures *)

(** C5.  Every operation ([otp.send] that passes its local check,
    [otp.verify], [otp.resend], [sms.send]) issues its request, and when the
    transport raises [httpx.RequestError] on it, so that no response is
    received, the operation raises [MSG91Exception] (the spec's
    TransportError) with the message ["Network error: " + str(e)], without a
    status code, of a class other than [APIError]. *)
Theorem transport_failure self c net :
  preflight_ok c = true ->
  exists req,
    issued (run self c) net = [req] /\
    forall cause,
      net req = Raise (RequestError cause) ->
      exists e,
        result (run self c) net = Raise (Msg91 e) /\
        error_class e = MSG91Exception /\
        error_class e <> APIError /\
        error_message e = PStr ("Network error: " +:+ cause) /\
        error_status e = None.
Proof.
  intros Hok. destruct (request_issued self c net Hok) as [req Hreq].
  exists req. split; [done|]. intros cause Hnet.
  rewrite (issued_result _ _ _ _ Hreq), Hnet. simpl.
  eexists. split; [reflexivity|]. simpl. by repeat split.
Qed.

Lemma transport_failure_witness :
  (exists req,
     issued (run test_client plain_otp_send) (refuse "Connection refused") = [req] /\
     forall cause,
       refuse "Connection refused" req = Raise (RequestError cause) ->
       exists e,
         result (run test_client plain_otp_send) (refuse "Connection refused")
           = Raise (Msg91 e) /\
         error_class e = MSG91Exception /\
         error_class e <> APIError /\
         error_message e = PStr ("Network error: " +:+ cause) /\
         error_status e = None) /\
  (exists req,
     issued (run test_client plain_sms_send) (refuse "timed out") = [req] /\
     forall cause,
       refuse "timed out" req = Raise (RequestError cause) ->
       exists e,
         result (run test_client plain_sms_send) (refuse "timed out")
           = Raise (Msg91 e) /\
         error_class e = MSG91Exception /\
         error_class e <> APIError /\
         error_message e = PStr ("Network error: " +:+ cause) /\
         error_status e = None).
Proof.
  split.
  - apply (transport_failure test_client plain_otp_send (refuse "Connection refused")).
    reflexivity.
  - apply (transport_failure test_client plain_sms_send (refuse "timed out")).
    reflexivity.
Defined.

(** A refused connection in [otp.send] and a timeout in [sms.send]. *)
Example refused_runs :
  result (run test_client plain_otp_send) (refuse "Connection refused")
  = Raise (Msg91 (Msg91Error MSG91Exception
                    (PStr "Network error: Connection refused") None None)) /\
  result (run test_client plain_sms_send) (refuse "timed out")
  = Raise (Msg91 (Msg91Error MSG91Exception
                    (PStr "Network error: timed out") None None)).
Proof. split; reflexivity. Qed.

(** An exception of the transport that is not an [httpx.RequestError]
    propagates unchanged. *)
Lemma other_exception_propagates self c net req name msg :
  issued (run self c) net = [req] ->
  net req = Raise (OtherException name msg) ->
  result (run self c) net = Raise (OtherException name msg).
Proof.
  intros Hreq Hnet. by rewrite (issued_result _ _ _ _ Hreq), Hnet.
Qed.

(** ** Failing responses *)

Lemma failing_response_result self c net req r :
  issued (run self c) net = [req] ->
  net req = Return r ->
  is_success r = false ->
  result (run self c) net =
    match error_type_of (parsed_body r) with
    | Return error_type =>
        Raise (Msg91 (Msg91Error (error_class_for (status_code r) error_type)
                        (message_of (default_message c) (parsed_body r))
                        (Some (status_code r)) (Some (parsed_body r))))
    | Raise e => Raise e
    end.
Proof.
  intros Hreq Hnet Hok.
  rewrite (issued_result _ _ _ _ Hreq), Hnet. simpl.
  unfold classify. by rewrite Hok.
Qed.

Lemma error_type_of_text body :
  type_is_text body -> exists error_type, error_type_of body = Return error_type.
Proof.
  destruct body as [ | | | | | |d]; simpl; eauto.
  destruct (d !! "type") as [[]|]; simpl; intros []; eauto.
Qed.

Lemma error_type_validation body error_type :
  error_type_of body = Return error_type ->
  String.eqb error_type "validation" = true <-> validation_marker body.
Proof.
  rewrite String.eqb_eq.
  destruct body as [ | | | | | |d]; simpl; try (intros [= <-]; done).
  destruct (d !! "type") as [[]|]; simpl; intros [= <-]; try done.
  apply lower_validation.
Qed.

(** On the bodies whose [type] field does not break [.lower()], status 401
    gives [AuthenticationError] with the status, the body's message or the
    operation's default, and the body as details, whatever the [type] field
    says. *)
Lemma authentication_error_on_401 self c net req r :
  issued (run self c) net = [req] ->
  net req = Return r ->
  is_success r = false ->
  status_code r = 401 ->
  type_is_text (parsed_body r) ->
  result (run self c) net =
    Raise (Msg91 (Msg91Error AuthenticationError
                    (message_of (default_message c) (parsed_body r))
                    (Some 401) (Some (parsed_body r)))).
Proof.
  intros Hreq Hnet Hok Hst [t Ht]%error_type_of_text.
  rewrite (failing_response_result _ _ _ _ _ Hreq Hnet Hok), Ht, Hst.
  reflexivity.
Qed.

(** The 401 test comes first: a 401 whose body is marked ["validation"] is
    an [AuthenticationError]. *)
Example authentication_before_validation :
  result (run test_client plain_otp_send)
    (respond (Response 401 false
                (Some (PDict (<["type" := PStr "validation"]> ∅))) ""))
  = Raise (Msg91 (Msg91Error AuthenticationError (PStr "OTP sending failed")
                    (Some 401)
                    (Some (PDict (<["type" := PStr "validation"]> ∅))))).
Proof. reflexivity. Qed.

(** On the same bodies, a failing response with another status gives
    [ValidationError] exactly when the status is 400 or the body carries the
    validation marker, and [APIError] otherwise, both with the actual status
    and the message. *)
Lemma validation_or_api_error self c net req r :
  issued (run self c) net = [req] ->
  net req = Return r ->
  is_success r = false ->
  status_code r <> 401 ->
  type_is_text (parsed_body r) ->
  exists cls,
    result (run self c) net =
      Raise (Msg91 (Msg91Error cls
                      (message_of (default_message c) (parsed_body r))
                      (Some (status_code r)) (Some (parsed_body r)))) /\
    (cls = ValidationError <-> status_code r = 400 \/ validation_marker (parsed_body r)) /\
    (cls <> ValidationError -> cls = APIError).
Proof.
  intros Hreq Hnet Hok Hst [t Ht]%error_type_of_text.
  rewrite (failing_response_result _ _ _ _ _ Hreq Hnet Hok), Ht.
  eexists. split; [reflexivity|].
  pose proof (error_type_validation _ _ Ht) as Hmark.
  unfold error_class_for.
  destruct (Z.eqb_spec (status_code r) 401) as [|_]; [done|].
  destruct (Z.eqb_spec (status_code r) 400) as [H400|H400]; simpl.
  - split; [by split; [left|] | done].
  - destruct (String.eqb t "validation").
    + split; [|done]. split; [intros _; right; by apply Hmark | done].
    + split; [|done]. split; [done|].
      intros [?|Hm]; [done|]. apply Hmark in Hm. discriminate.
Qed.

(** A failing response whose body is a mapping with a [type] field that is
    not a string ends in [AttributeError], whatever the status. *)
Lemma attribute_error_on_non_text_type self c net req r d v :
  issued (run self c) net = [req] ->
  net req = Return r ->
  is_success r = false ->
  json_body r = Some (PDict d) ->
  d !! "type" = Some v ->
  (forall s, v <> PStr s) ->
  result (run self c) net =
    Raise (AttributeError ("'" +:+ type_name v +:+ "' object has no attribute 'lower'")).
Proof.
  intros Hreq Hnet Hok Hbody Hty Hv.
  rewrite (failing_response_result _ _ _ _ _ Hreq Hnet Hok).
  unfold parsed_body. rewrite Hbody. simpl. rewrite Hty.
  destruct v; try done. by destruct (Hv s).
Qed.

(** C1.  [otp.send(mobile="919999999999")] answered with status 401 and the
    body [{"type": null, "message": "Invalid authentication key"}] ends in
    [AttributeError], not in [AuthenticationError]: [.lower()] is called on
    the [type] field before the status is looked at. *)
Theorem null_type_401_raises_attribute_error :
  result (run test_client plain_otp_send)
    (respond (Response 401 false
                (Some (null_type_body "Invalid authentication key")) ""))
  = Raise (AttributeError "'NoneType' object has no attribute 'lower'").
Proof. reflexivity. Qed.

(** C2.  [otp.resend(mobile="919999999999")] answered with status 500 and
    the body [{"type": null, "message": "Server error"}] ends in
    [AttributeError], not in [APIError] with status 500. *)
Theorem null_type_500_raises_attribute_error :
  result (run test_client (OtpResend "919999999999" "text" ∅))
    (respond (Response 500 false (Some (null_type_body "Server error")) ""))
  = Raise (AttributeError "'NoneType' object has no attribute 'lower'").
Proof. reflexivity. Qed.

(** ** The requests of the OTP operations *)

(** The request of [otp.send]: a GET with the query parameters built before
    the extra parameters are merged in, no headers and no JSON payload. *)
Lemma otp_send_request self mobile message sender otp otp_expiry otp_length kwargs net :
  preflight_ok (OtpSend mobile message sender otp otp_expiry otp_length kwargs) = true ->
  exists base,
    issued (otp_send self mobile message sender otp otp_expiry otp_length kwargs) net
      = [Request GET "http://api.msg91.com/api/sendotp.php"
           (Some (add_kwargs kwargs base)) None None 30] /\
    base !! "authkey" = Some (PStr (auth_key (http_client self))) /\
    base !! "otp_length" =
      match otp_length with
      | Some n => if Z.eqb n 0 then None else Some (PInt n)
      | None => None
      end.
Proof.
  intros Hok. unfold issued, otp_send. simpl in Hok.
  destruct otp_length as [n|]; simpl.
  - destruct (Z.eqb n 0); simpl in *.
    + rewrite bind_ret, get_exchange. eexists. split; [reflexivity|].
      split; case_fields; by simplify_map_eq.
    + rewrite Hok. simpl. rewrite bind_ret, get_exchange.
      eexists. split; [reflexivity|].
      split; case_fields; by simplify_map_eq.
  - rewrite bind_ret, get_exchange. eexists. split; [reflexivity|].
    split; case_fields; by simplify_map_eq.
Qed.

Lemma otp_verify_request self mobile otp kwargs net :
  exists base,
    issued (otp_verify self mobile otp kwargs) net
      = [Request GET "http://api.msg91.com/api/verifyRequestOTP.php"
           (Some (add_kwargs kwargs base)) None None 30] /\
    base !! "authkey" = Some (PStr (auth_key (http_client self))).
Proof.
  unfold issued, otp_verify. rewrite get_exchange.
  eexists. split; [reflexivity|]. by simplify_map_eq.
Qed.

Lemma otp_resend_request self mobile retrytype kwargs net :
  exists base,
    issued (otp_resend self mobile retrytype kwargs) net
      = [Request GET "http://api.msg91.com/api/retryotp.php"
           (Some (add_kwargs kwargs base)) None None 30] /\
    base !! "authkey" = Some (PStr (auth_key (http_client self))).
Proof.
  unfold issued, otp_resend. rewrite get_exchange.
  eexists. split; [reflexivity|]. by simplify_map_eq.
Qed.

(** ** The length of the OTP *)

(** A length other than zero outside 4..9 is refused with [ValueError]
    before any request. *)
Lemma otp_length_rejected self mobile message sender otp otp_expiry n kwargs net :
  n <> 0 -> n < 4 \/ 9 < n ->
  issued (otp_send self mobile message sender otp otp_expiry (Some n) kwargs) net = [] /\
  result (otp_send self mobile message sender otp otp_expiry (Some n) kwargs) net
    = Raise (ValueError "OTP length must be between 4 and 9").
Proof.
  intros Hn Hrange.
  pose proof (run_rejected self
    (OtpSend mobile message sender otp otp_expiry (Some n) kwargs) net) as Hrun.
  simpl in Hrun. unfold issued, result. rewrite Hrun; [done|].
  apply orb_false_iff. split; [by apply Z.eqb_neq|].
  apply andb_false_iff. destruct Hrange; [left | right]; by apply Z.leb_gt.
Qed.

(** A length in 4..9 goes out as the [otp_length] query parameter. *)
Lemma otp_length_sent self mobile message sender otp otp_expiry n kwargs net :
  4 <= n <= 9 ->
  keyword_free
    (parameters (OtpSend mobile message sender otp otp_expiry (Some n) kwargs)) kwargs ->
  exists req params,
    issued (otp_send self mobile message sender otp otp_expiry (Some n) kwargs) net = [req] /\
    req_params req = Some params /\
    params !! "otp_length" = Some (PInt n).
Proof.
  intros Hn Hfree.
  destruct (otp_send_request self mobile message sender otp otp_expiry (Some n) kwargs net)
    as (base & Hreq & _ & Hlen).
  { simpl. apply orb_true_iff. right. apply andb_true_iff.
    split; apply Z.leb_le; lia. }
  eexists _, _. split; [exact Hreq|]. split; [reflexivity|].
  rewrite add_kwargs_standard, Hlen.
  - destruct (Z.eqb_spec n 0); [lia | done].
  - simpl in Hfree. by repeat (apply Forall_cons in Hfree as [? Hfree]).
Qed.

(** C4.  [otp.send(mobile="919999999999", otp_length=0)] is not refused: the
    length 0 is given and lies outside 4..9, yet the call issues its request,
    without an [otp_length] parameter, whatever the network does. *)
Theorem zero_otp_length_is_sent :
  forall net,
    issued (otp_send test_client "919999999999" None None None None (Some 0) ∅) net
      = [plain_otp_request] /\
    req_fields plain_otp_request !! "otp_length" = None.
Proof.
  intros net. split; [|reflexivity].
  unfold issued, otp_send. simpl. by rewrite bind_ret, get_exchange.
Qed.

(** The runs of [test_send_otp_invalid_length]. *)
Example otp_length_3_and_10 :
  otp_send test_client "919999999999" None None None None (Some 3) ∅
    (respond (Response 200 true (Some success_body) "")) []
  = ([], Raise (ValueError "OTP length must be between 4 and 9")) /\
  otp_send test_client "919999999999" None None None None (Some 10) ∅
    (respond (Response 200 true (Some success_body) "")) []
  = ([], Raise (ValueError "OTP length must be between 4 and 9")).
Proof. split; reflexivity. Qed.

(** ** The request of [sms.send] *)

Lemma lookup_if_insert_ne (b : bool) (k k' : string) (v : pyval) (m : gmap string pyval) :
  k <> k' -> (if b then <[k := v]> m else m) !! k' = m !! k'.
Proof. intros H. destruct b; [by rewrite lookup_insert_ne | done]. Qed.

Lemma lookup_match_insert_ne {A : Type} (o : option A) (k k' : string) (f : A -> pyval)
    (m : gmap string pyval) :
  k <> k' ->
  match o with Some x => <[k := f x]> m | None => m end !! k' = m !! k'.
Proof. intros H. destruct o; [by rewrite lookup_insert_ne | done]. Qed.

Lemma sms_send_request self mobile message sender route country flash unicode
    scheduled_datetime campaign kwargs net :
  exists base,
    issued (sms_send self mobile message sender route country flash unicode
              scheduled_datetime campaign kwargs) net
      = [Request POST "http://api.msg91.com/api/v2/sendsms" None
           (Some (add_kwargs kwargs base))
           (Some (<["authkey" := auth_key (http_client self)]>
                    (<["Content-Type" := "application/json"]> ∅)))
           30] /\
    base !! "authkey" = Some (PStr (auth_key (http_client self))) /\
    base !! "mobiles" =
      Some (PStr (match mobile with
                  | MobileList l => String.concat "," l
                  | MobileStr s => s
                  end)) /\
    base !! "flash" = flag_field flash /\
    base !! "unicode" = flag_field unicode.
Proof.
  unfold issued, sms_send. rewrite post_exchange.
  eexists. split; [reflexivity|].
  repeat split.
  - rewrite !lookup_if_insert_ne, !lookup_match_insert_ne by done.
    by rewrite !lookup_insert_ne, lookup_insert_eq by done.
  - rewrite !lookup_if_insert_ne, !lookup_match_insert_ne by done.
    by rewrite !lookup_insert_ne, lookup_insert_eq by done.
  - rewrite !lookup_if_insert_ne, lookup_match_insert_ne by done.
    destruct flash as [[]|]; simpl; rewrite ?lookup_insert_eq; try done.
    rewrite lookup_match_insert_ne by done.
    by rewrite !lookup_insert_ne, lookup_empty by done.
  - rewrite !lookup_if_insert_ne by done.
    destruct unicode as [[]|]; simpl; rewrite ?lookup_insert_eq; try done.
    rewrite !lookup_match_insert_ne by done.
    by rewrite !lookup_insert_ne, lookup_empty by done.
Qed.

(** C6, as amended.  In every call of [sms.send] without an extra keyword
    parameter named [mobiles], the [mobiles] field of the JSON payload is the
    list of numbers joined with commas when [mobile] is a list, and [mobile]
    itself when it is a string. *)
Theorem mobiles_field self mobile message sender route country flash unicode
    scheduled_datetime campaign kwargs net :
  kwargs !! "mobiles" = None ->
  exists req payload,
    issued (sms_send self mobile message sender route country flash unicode
              scheduled_datetime campaign kwargs) net = [req] /\
    req_json req = Some payload /\
    (forall l, mobile = MobileList l ->
               payload !! "mobiles" = Some (PStr (String.concat "," l))) /\
    (forall s, mobile = MobileStr s -> payload !! "mobiles" = Some (PStr s)).
Proof.
  intros Hfree.
  destruct (sms_send_request self mobile message sender route country flash unicode
              scheduled_datetime campaign kwargs net) as (base & Hreq & _ & Hmob & _).
  eexists _, _. split; [exact Hreq|]. split; [reflexivity|].
  rewrite add_kwargs_standard by done.
  split; intros ? ->; exact Hmob.
Qed.

Lemma mobiles_field_witness :
  exists req payload,
    issued (sms_to_two ∅) (respond (Response 200 true (Some success_body) "")) = [req] /\
    req_json req = Some payload /\
    (forall l, two_numbers = MobileList l ->
               payload !! "mobiles" = Some (PStr (String.concat "," l))) /\
    (forall s, two_numbers = MobileStr s -> payload !! "mobiles" = Some (PStr s)).
Proof.
  apply (mobiles_field test_client two_numbers "Test SMS message" "SENDER" "4"
           None None None None None ∅
           (respond (Response 200 true (Some success_body) ""))).
  reflexivity.
Defined.

(** The two numbers of the spec's example go out as one string. *)
Example two_numbers_joined :
  sent (sms_to_two ∅) (respond (Response 200 true (Some success_body) "")) "mobiles"
  = Some (PStr "919000000001,919000000002").
Proof. reflexivity. Qed.

(** C6, as stated, fails on
    [sms.send(mobile=["919000000001","919000000002"], ..., mobiles="919000000003")]:
    the extra parameter replaces the joined numbers. *)
Lemma mobiles_field_overridden :
  sent (sms_to_two {[ "mobiles" := PStr "919000000003" ]})
    (respond (Response 200 true (Some success_body) "")) "mobiles"
  = Some (PStr "919000000003") /\
  sent (sms_to_two {[ "mobiles" := PStr "919000000003" ]})
    (respond (Response 200 true (Some success_body) "")) "mobiles"
  <> Some (PStr "919000000001,919000000002").
Proof. split; [reflexivity | vm_compute; discriminate]. Qed.

(** ** The recipients of [sms.send_template] *)

Lemma foldl_snoc {A B : Type} (f : A -> B) (l : list A) (init : list B) :
  foldl (fun acc x => (acc ++ [f x])%list) init l = (init ++ (f <$> l))%list.
Proof.
  revert init. induction l as [|x l IH]; intros init; simpl.
  - by rewrite app_nil_r.
  - by rewrite IH, <- app_assoc.
Qed.

(** The loop of [_format_recipients] makes one entry per number, in order. *)
Lemma format_recipients_map mobile variables :
  _format_recipients mobile variables =
    (fun number =>
       PDict (if truthy (opt_dict variables)
              then <["variables" := opt_dict variables]> (<["mobile" := PStr number]> ∅)
              else <["mobile" := PStr number]> ∅)) <$> numbers mobile.
Proof.
  unfold _format_recipients.
  rewrite (foldl_snoc (fun number => PDict _)).
  by destruct mobile.
Qed.

Lemma truthy_dict (variables : option (gmap string pyval)) :
  truthy (opt_dict variables) = true <-> exists v, variables = Some v /\ v <> ∅.
Proof.
  destruct variables as [v|]; simpl.
  - rewrite negb_true_iff, Nat.eqb_neq, map_size_non_empty_iff.
    split; [by exists v | by intros (? & [= <-] & ?)].
  - split; [done | by intros (? & ? & _)].
Qed.

(** C7, as amended.  In every call of [sms.send_template] without an extra
    keyword parameter named [recipients], the [recipients] field of the
    payload is a list with exactly one entry per target number (a single
    string counting as a list of one), in order; each entry maps ["mobile"]
    to its number; it maps ["variables"] to the given mapping when that
    mapping is given and not empty, has no ["variables"] key when the mapping
    is not given or is empty, and has no other key. *)
Theorem recipients_field template_id mobile variables sender_id short_url kwargs :
  kwargs !! "recipients" = None ->
  exists entries : list (gmap string pyval),
    send_template_payload template_id mobile variables sender_id short_url kwargs
      !! "recipients" = Some (PList (PDict <$> entries)) /\
    length entries = length (numbers mobile) /\
    forall i number,
      numbers mobile !! i = Some number ->
      exists entry,
        entries !! i = Some entry /\
        entry !! "mobile" = Some (PStr number) /\
        (forall v, variables = Some v -> v <> ∅ ->
                   entry !! "variables" = Some (PDict v)) /\
        (variables = None \/ variables = Some ∅ -> entry !! "variables" = None) /\
        (forall key, key <> "mobile" -> key <> "variables" -> entry !! key = None).
Proof.
  intros Hfree. unfold send_template_payload.
  rewrite add_kwargs_standard by done.
  rewrite lookup_match_insert_ne, lookup_if_insert_ne, lookup_insert_eq by done.
  rewrite format_recipients_map.
  exists ((fun number =>
             if truthy (opt_dict variables)
             then <["variables" := opt_dict variables]> (<["mobile" := PStr number]> ∅)
             else <["mobile" := PStr number]> ∅) <$> numbers mobile).
  split; [by rewrite <- list_fmap_compose|].
  split; [by rewrite length_fmap|].
  intros i number Hi. eexists. split; [by rewrite list_lookup_fmap, Hi|].
  pose proof (truthy_dict variables) as Htruthy.
  destruct (truthy (opt_dict variables)).
  - destruct (proj1 Htruthy eq_refl) as (v & -> & Hv). simpl.
    split; [by simplify_map_eq|].
    split; [intros ? [= <-] _; by simplify_map_eq|].
    split; [by intros [|[= ->]]|].
    intros key ? ?. by simplify_map_eq.
  - split; [by simplify_map_eq|].
    split; [intros v -> Hv; destruct Htruthy as [_ H]; discriminate H; eauto|].
    split; [intros _; by simplify_map_eq|].
    intros key ? ?. by simplify_map_eq.
Qed.

Lemma recipients_field_witness :
  exists entries : list (gmap string pyval),
    send_template_payload "template_1" two_numbers (Some two_variables) None None ∅
      !! "recipients" = Some (PList (PDict <$> entries)) /\
    length entries = length (numbers two_numbers) /\
    forall i number,
      numbers two_numbers !! i = Some number ->
      exists entry,
        entries !! i = Some entry /\
        entry !! "mobile" = Some (PStr number) /\
        (forall v, Some two_variables = Some v -> v <> ∅ ->
                   entry !! "variables" = Some (PDict v)) /\
        (Some two_variables = None \/ Some two_variables = Some ∅ ->
         entry !! "variables" = None) /\
        (forall key, key <> "mobile" -> key <> "variables" -> entry !! key = None).
Proof.
  apply (recipients_field "template_1" two_numbers (Some two_variables) None None ∅).
  reflexivity.
Defined.

(** The payload for two numbers and two variables. *)
Example two_recipients :
  send_template_payload "template_1" two_numbers (Some two_variables) None None ∅
    !! "recipients"
  = Some (PList
      [PDict (<["variables" := PDict two_variables]>
                (<["mobile" := PStr "919000000001"]> ∅));
       PDict (<["variables" := PDict two_variables]>
                (<["mobile" := PStr "919000000002"]> ∅))]).
Proof. reflexivity. Qed.

(** C7, as stated, fails on
    [send_template("template_1", "919000000001", variables={})], where the
    mapping is given and yet no entry has a ["variables"] key, and on
    [send_template("template_1", "919000000001", recipients="nobody")], where
    the extra parameter replaces the list. *)
Lemma recipients_field_not_as_stated :
  send_template_payload "template_1" (MobileStr "919000000001") (Some ∅) None None ∅
    !! "recipients"
  = Some (PList [PDict (<["mobile" := PStr "919000000001"]> ∅)]) /\
  (<["mobile" := PStr "919000000001"]> ∅ : gmap string pyval) !! "variables" = None /\
  send_template_payload "template_1" (MobileStr "919000000001") None None None
    {[ "recipients" := PStr "nobody" ]} !! "recipients"
  = Some (PStr "nobody").
Proof. repeat split; reflexivity. Qed.

(** ** Flags *)

(** C8.  In [sms.send] the payload fields [flash] and [unicode], and in
    [sms.send_template] the payload field [short_url], are the string ["1"]
    for a true flag, the string ["0"] for a false one, never a boolean, and
    absent when the flag is [None].  The extra keyword parameters are those
    Python lets through: none bears the name of a declared parameter. *)
Theorem flags_as_strings self mobile message sender route country flash unicode
    scheduled_datetime campaign kwargs net
    template_id t_mobile variables sender_id short_url t_kwargs :
  keyword_free
    (parameters (SmsSend mobile message sender route country flash unicode
                   scheduled_datetime campaign kwargs)) kwargs ->
  keyword_free send_template_parameters t_kwargs ->
  (exists req payload,
     issued (sms_send self mobile message sender route country flash unicode
               scheduled_datetime campaign kwargs) net = [req] /\
     req_json req = Some payload /\
     payload !! "flash" = flag_field flash /\
     payload !! "unicode" = flag_field unicode /\
     (forall b, payload !! "flash" <> Some (PBool b)) /\
     (forall b, payload !! "unicode" <> Some (PBool b))) /\
  send_template_payload template_id t_mobile variables sender_id short_url t_kwargs
    !! "short_url" = flag_field short_url /\
  (forall b,
     send_template_payload template_id t_mobile variables sender_id short_url t_kwargs
       !! "short_url" <> Some (PBool b)).
Proof.
  intros Hfree Htfree. simpl in Hfree. unfold send_template_parameters in Htfree.
  repeat (apply Forall_cons in Hfree as [? Hfree]).
  repeat (apply Forall_cons in Htfree as [? Htfree]).
  assert (Hshort :
    send_template_payload template_id t_mobile variables sender_id short_url t_kwargs
      !! "short_url" = flag_field short_url).
  { unfold send_template_payload. rewrite add_kwargs_standard by done.
    destruct short_url as [[]|]; simpl; rewrite ?lookup_insert_eq; try done.
    by rewrite lookup_if_insert_ne, !lookup_insert_ne, lookup_empty by done. }
  split; [|split; [done|]].
  - destruct (sms_send_request self mobile message sender route country flash unicode
                scheduled_datetime campaign kwargs net)
      as (base & Hreq & _ & _ & Hflash & Hunicode).
    eexists _, _. split; [exact Hreq|]. split; [reflexivity|].
    rewrite !add_kwargs_standard, Hflash, Hunicode by done.
    repeat split; try done.
    + intros b. by destruct flash as [[]|].
    + intros b. by destruct unicode as [[]|].
  - intros b. rewrite Hshort. by destruct short_url as [[]|].
Qed.

Lemma flags_as_strings_witness :
  (exists req payload,
     issued (sms_send test_client two_numbers "Test SMS message" "SENDER" "4"
               None (Some true) (Some false) None None ∅)
       (respond (Response 200 true (Some success_body) "")) = [req] /\
     req_json req = Some payload /\
     payload !! "flash" = Some (PStr "1") /\
     payload !! "unicode" = Some (PStr "0") /\
     (forall b, payload !! "flash" <> Some (PBool b)) /\
     (forall b, payload !! "unicode" <> Some (PBool b))) /\
  send_template_payload "template_1" two_numbers None None (Some true) ∅
    !! "short_url" = Some (PStr "1") /\
  (forall b,
     send_template_payload "template_1" two_numbers None None (Some true) ∅
       !! "short_url" <> Some (PBool b)).
Proof.
  apply (flags_as_strings test_client two_numbers "Test SMS message" "SENDER" "4"
           None (Some true) (Some false) None None ∅
           (respond (Response 200 true (Some success_body) ""))
           "template_1" two_numbers None None (Some true) ∅).
  - simpl. repeat constructor.
  - unfold send_template_parameters. repeat constructor.
Defined.

(** ** Where the authentication key goes *)

(** The request of a call, with the fields it had before the extra
    parameters were merged in. *)
Lemma issued_fields self c net req :
  issued (run self c) net = [req] ->
  exists base,
    req_fields req = add_kwargs (kwargs_of c) base /\
    base !! "authkey" = Some (PStr (auth_key (http_client self))) /\
    req_method req = (if is_otp c then GET else POST) /\
    req_params req = (if is_otp c then Some (req_fields req) else None) /\
    req_json req = (if is_otp c then None else Some (req_fields req)) /\
    req_headers req =
      (if is_otp c then None
       else Some (<["authkey" := auth_key (http_client self)]>
                    (<["Content-Type" := "application/json"]> ∅))).
Proof.
  intros Hreq. pose proof (issued_request _ _ _ _ Hreq) as [Hok _].
  destruct c as [mobile message sender otp otp_expiry otp_length kwargs
                | mobile otp kwargs | mobile retrytype kwargs
                | mobile message sender route country flash unicode sd campaign kwargs];
    simpl in Hreq |- *.
  - destruct (otp_send_request self mobile message sender otp otp_expiry otp_length
                kwargs net Hok) as (base & Hreq' & Hkey & _).
    rewrite Hreq' in Hreq. injection Hreq as <-. by exists base.
  - destruct (otp_verify_request self mobile otp kwargs net) as (base & Hreq' & Hkey).
    rewrite Hreq' in Hreq. injection Hreq as <-. by exists base.
  - destruct (otp_resend_request self mobile retrytype kwargs net) as (base & Hreq' & Hkey).
    rewrite Hreq' in Hreq. injection Hreq as <-. by exists base.
  - destruct (sms_send_request self mobile message sender route country flash unicode
                sd campaign kwargs net) as (base & Hreq' & Hkey & _).
    rewrite Hreq' in Hreq. injection Hreq as <-. by exists base.
Qed.

(** C9, as amended.  Every call that passes no extra keyword parameter named
    [authkey] and is not refused by the local check of [otp.send] issues its
    request, and in it: [otp.send], [otp.verify] and [otp.resend] send the
    client's authentication key as the query parameter [authkey] of a request
    that has no headers of the library's and no JSON payload; [sms.send]
    sends it as the [authkey] header and as the [authkey] field of the JSON
    payload. *)
Theorem authkey_placement self c net :
  preflight_ok c = true ->
  kwargs_of c !! "authkey" = None ->
  exists req,
    issued (run self c) net = [req] /\
    (is_otp c = true ->
     req_headers req = None /\ req_json req = None /\
     exists params,
       req_params req = Some params /\
       params !! "authkey" = Some (PStr (auth_key (http_client self)))) /\
    (is_otp c = false ->
     (exists headers,
        req_headers req = Some headers /\
        headers !! "authkey" = Some (auth_key (http_client self))) /\
     exists payload,
       req_json req = Some payload /\
       payload !! "authkey" = Some (PStr (auth_key (http_client self)))).
Proof.
  intros Hok Hfree. destruct (request_issued self c net Hok) as [req Hreq].
  exists req. split; [done|].
  destruct (issued_fields _ _ _ _ Hreq) as (base & Hfields & Hkey & _ & Hp & Hj & Hh).
  assert (req_fields req !! "authkey" = Some (PStr (auth_key (http_client self)))) as Hsent.
  { by rewrite Hfields, add_kwargs_standard. }
  split; intros Hop; rewrite Hop in *.
  - repeat split; [done | done |]. by exists (req_fields req).
  - split; [|by exists (req_fields req)].
    eexists. split; [exact Hh|]. by rewrite lookup_insert_eq.
Qed.

Lemma authkey_placement_witness :
  (exists req,
     issued (run test_client plain_otp_send) (refuse "timed out") = [req] /\
     (is_otp plain_otp_send = true ->
      req_headers req = None /\ req_json req = None /\
      exists params,
        req_params req = Some params /\
        params !! "authkey" = Some (PStr (auth_key (http_client test_client)))) /\
     (is_otp plain_otp_send = false ->
      (exists headers,
         req_headers req = Some headers /\
         headers !! "authkey" = Some (auth_key (http_client test_client))) /\
      exists payload,
        req_json req = Some payload /\
        payload !! "authkey" = Some (PStr (auth_key (http_client test_client))))) /\
  (exists req,
     issued (run test_client plain_sms_send) (refuse "timed out") = [req] /\
     (is_otp plain_sms_send = true ->
      req_headers req = None /\ req_json req = None /\
      exists params,
        req_params req = Some params /\
        params !! "authkey" = Some (PStr (auth_key (http_client test_client)))) /\
     (is_otp plain_sms_send = false ->
      (exists headers,
         req_headers req = Some headers /\
         headers !! "authkey" = Some (auth_key (http_client test_client))) /\
      exists payload,
        req_json req = Some payload /\
        payload !! "authkey" = Some (PStr (auth_key (http_client test_client))))).
Proof.
  split.
  - apply (authkey_placement test_client plain_otp_send (refuse "timed out"));
      reflexivity.
  - apply (authkey_placement test_client plain_sms_send (refuse "timed out"));
      reflexivity.
Defined.

(** [otp.send(mobile="919999999999", otp_length=3)] is refused by the local
    check: it sends nothing, the key included. *)
Example refused_call_sends_no_key :
  issued (otp_send test_client "919999999999" None None None None (Some 3) ∅)
    (refuse "timed out") = [] /\
  sent (otp_send test_client "919999999999" None None None None (Some 3) ∅)
    (refuse "timed out") "authkey" = None.
Proof. split; reflexivity. Qed.

(** The request of [test_sms_send] carries the key twice. *)
Example sms_send_key_twice :
  exists req headers,
    issued (sms_to_two ∅) (respond (Response 200 true (Some success_body) "")) = [req] /\
    req_headers req = Some headers /\
    headers !! "authkey" = Some "test_auth_key" /\
    req_fields req !! "authkey" = Some (PStr "test_auth_key").
Proof. eexists _, _. repeat split; reflexivity. Qed.

(** C9, as stated, fails on
    [otp.send(mobile="919999999999", authkey="other_key")]: the query
    parameter [authkey] carries the extra parameter, not the client's key. *)
Lemma authkey_overridden :
  sent (run test_client override_otp_send)
    (respond (Response 200 true (Some success_body) "")) "authkey"
  = Some (PStr "other_key") /\
  PStr "other_key" <> PStr (auth_key (http_client test_client)).
Proof. split; [reflexivity | discriminate]. Qed.

(** ** Extra parameters win *)

(** The run of [test_otp_additional_kwargs]. *)
Example additional_kwargs :
  sent (run test_client
          (OtpSend "919999999999" None None None None None
             (<["another_param" := PStr "another_value"]>
                (<["extra_param" := PStr "value"]> ∅))))
    (respond (Response 200 true (Some success_body) "")) "extra_param"
  = Some (PStr "value").
Proof. reflexivity. Qed.

(** * Further properties of the two resources *)

(** ** One request, fixed before the network answers *)

(** X1.  A call issues at most one request, and the request does not depend
    on what the network does with it: nothing is retried after a failing
    response or a transport error, and nothing is sent after the answer. *)
Theorem one_request_whatever_the_network self c net net' :
  issued (run self c) net = issued (run self c) net' /\
  (length (issued (run self c) net) <= 1)%nat.
Proof.
  unfold issued. destruct (preflight_ok c) eqn:Hok.
  - destruct (run_exchange self c Hok) as [req Hrun]. rewrite !Hrun.
    split; [done | simpl; lia].
  - rewrite !run_rejected by done. split; [done | simpl; lia].
Qed.

(** ** Failing responses, whatever the body *)

(** X2.  A failing response never gives a return value.  The call raises
    either [AttributeError] or one of [AuthenticationError],
    [ValidationError], [APIError] (never the bare [MSG91Exception]) with the
    response's status code and the body as details. *)
Theorem failing_response_always_raises self c net req r :
  issued (run self c) net = [req] ->
  net req = Return r ->
  is_success r = false ->
  (exists msg, result (run self c) net = Raise (AttributeError msg)) \/
  (exists cls message,
     result (run self c) net =
       Raise (Msg91 (Msg91Error cls message (Some (status_code r))
                       (Some (parsed_body r)))) /\
     cls <> MSG91Exception).
Proof.
  intros Hreq Hnet Hok.
  rewrite (failing_response_result _ _ _ _ _ Hreq Hnet Hok).
  unfold error_type_of.
  destruct (parsed_body r) as [ | | | | | |d];
    try (right; eexists _, _; split; [reflexivity|];
         unfold error_class_for; by repeat case_match).
  destruct (d !! "type") as [[]|];
    first [ left; eexists; reflexivity
          | right; eexists _, _; (split; [reflexivity|]);
            unfold error_class_for; by repeat case_match ].
Qed.

Lemma failing_response_always_raises_witness :
  (exists msg,
     result (run test_client plain_otp_send) (respond gateway_timeout)
       = Raise (AttributeError msg)) \/
  (exists cls message,
     result (run test_client plain_otp_send) (respond gateway_timeout) =
       Raise (Msg91 (Msg91Error cls message (Some (status_code gateway_timeout))
                       (Some (parsed_body gateway_timeout)))) /\
     cls <> MSG91Exception).
Proof.
  apply (failing_response_always_raises test_client plain_otp_send
           (respond gateway_timeout) plain_otp_request gateway_timeout);
    reflexivity.
Defined.

(** X3.  A failing response whose body is not JSON is classified by its
    status alone: 401 gives [AuthenticationError], 400 [ValidationError],
    any other status [APIError], always with the operation's default message
    and [{"raw_content": <body text>}] as details, whatever the text says. *)
Theorem non_json_failure self c net req r :
  issued (run self c) net = [req] ->
  net req = Return r ->
  is_success r = false ->
  json_body r = None ->
  exists cls,
    result (run self c) net =
      Raise (Msg91 (Msg91Error cls (PStr (default_message c))
                      (Some (status_code r))
                      (Some (PDict {[ "raw_content" := PStr (text r) ]})))) /\
    (status_code r = 401 -> cls = AuthenticationError) /\
    (status_code r = 400 -> cls = ValidationError) /\
    (status_code r <> 401 -> status_code r <> 400 -> cls = APIError).
Proof.
  intros Hreq Hnet Hok Hbody.
  rewrite (failing_response_result _ _ _ _ _ Hreq Hnet Hok).
  unfold parsed_body, raw_content. rewrite Hbody. simpl.
  rewrite !lookup_singleton_ne by done.
  eexists. split; [reflexivity|]. unfold error_class_for.
  destruct (Z.eqb_spec (status_code r) 401) as [H1|H1];
    destruct (Z.eqb_spec (status_code r) 400) as [H0|H0]; simpl;
    repeat split; intros; congruence.
Qed.

Lemma non_json_failure_witness :
  exists cls,
    result (run test_client plain_otp_send) (respond gateway_timeout) =
      Raise (Msg91 (Msg91Error cls (PStr (default_message plain_otp_send))
                      (Some (status_code gateway_timeout))
                      (Some (PDict {[ "raw_content" := PStr (text gateway_timeout) ]})))) /\
    (status_code gateway_timeout = 401 -> cls = AuthenticationError) /\
    (status_code gateway_timeout = 400 -> cls = ValidationError) /\
    (status_code gateway_timeout <> 401 -> status_code gateway_timeout <> 400 ->
     cls = APIError).
Proof.
  apply (non_json_failure test_client plain_otp_send
           (respond gateway_timeout) plain_otp_request gateway_timeout);
    reflexivity.
Defined.

(** X4.  A failing response whose body is a mapping with a [type] field
    that is not a string ends in [AttributeError] for every operation and
    every status: no library error is raised for it. *)
Theorem non_text_type_breaks_classification self c net req r d v :
  issued (run self c) net = [req] ->
  net req = Return r ->
  is_success r = false ->
  json_body r = Some (PDict d) ->
  d !! "type" = Some v ->
  (forall s, v <> PStr s) ->
  result (run self c) net =
    Raise (AttributeError ("'" +:+ type_name v +:+ "' object has no attribute 'lower'")).
Proof. apply attribute_error_on_non_text_type. Qed.

Lemma non_text_type_breaks_classification_witness :
  result (run test_client plain_otp_send)
    (respond (Response 422 false (Some (PDict {[ "type" := PInt 7 ]})) ""))
  = Raise (AttributeError ("'" +:+ type_name (PInt 7) +:+ "' object has no attribute 'lower'")).
Proof.
  apply (non_text_type_breaks_classification test_client plain_otp_send
           (respond (Response 422 false (Some (PDict {[ "type" := PInt 7 ]})) ""))
           plain_otp_request
           (Response 422 false (Some (PDict {[ "type" := PInt 7 ]})) "")
           {[ "type" := PInt 7 ]} (PInt 7));
    try reflexivity.
  intros s. discriminate.
Defined.

(** X5.  Only [httpx.RequestError] is turned into a library error: any other
    exception raised by the transport reaches the caller unchanged. *)
Theorem foreign_exception_propagates self c net req e :
  issued (run self c) net = [req] ->
  net req = Raise e ->
  (forall msg, e <> RequestError msg) ->
  result (run self c) net = Raise e.
Proof.
  intros Hreq Hnet He.
  rewrite (issued_result _ _ _ _ Hreq), Hnet. simpl.
  destruct e; try done. by destruct (He msg).
Qed.

Lemma foreign_exception_propagates_witness :
  result (run test_client plain_otp_send)
    (fun _ => Raise (OtherException "Exception" "Network error"))
  = Raise (OtherException "Exception" "Network error").
Proof.
  apply (foreign_exception_propagates test_client plain_otp_send
           (fun _ => Raise (OtherException "Exception" "Network error"))
           plain_otp_request);
    [reflexivity | reflexivity | intros msg; discriminate].
Defined.

Lemma result_respond self c r :
  preflight_ok c = true ->
  result (run self c) (respond r) = classify (default_message c) r.
Proof.
  intros Hok. destruct (request_issued self c (respond r) Hok) as [req Hreq].
  by rewrite (issued_result _ _ _ _ Hreq).
Qed.

(** X6.  The four operations apply one policy: two calls, of any two
    operations, that pass their local checks and are answered with the same
    response end the same way when the response is a success or its body is
    a mapping with a [message] field; for any other response they end the
    same way or in library errors of the same class, status and details
    that carry the default message of each operation. *)
Theorem same_policy_for_every_operation self c self' c' r :
  preflight_ok c = true ->
  preflight_ok c' = true ->
  (is_success r = true \/
     (exists d m, json_body r = Some (PDict d) /\ d !! "message" = Some m) ->
   result (run self c) (respond r) = result (run self' c') (respond r)) /\
  (result (run self c) (respond r) = result (run self' c') (respond r) \/
   exists cls status details,
     result (run self c) (respond r) =
       Raise (Msg91 (Msg91Error cls (PStr (default_message c)) status details)) /\
     result (run self' c') (respond r) =
       Raise (Msg91 (Msg91Error cls (PStr (default_message c')) status details))).
Proof.
  intros Hok Hok'. rewrite !result_respond by done. unfold classify. split.
  - intros [-> | (d & m & Hbody & Hm)]; [done|].
    destruct (is_success r); [done|].
    unfold parsed_body. rewrite Hbody. simpl. by rewrite Hm.
  - destruct (is_success r); [by left|].
    destruct (error_type_of (parsed_body r)) as [t|e]; [|by left].
    unfold message_of.
    destruct (parsed_body r) as [ | | | | | |d];
      try (right; eexists _, _, _; split; reflexivity).
    destruct (d !! "message"); [by left|].
    right. eexists _, _, _. split; reflexivity.
Qed.

Lemma same_policy_for_every_operation_witness :
  (is_success gateway_timeout = true \/
     (exists d m, json_body gateway_timeout = Some (PDict d) /\ d !! "message" = Some m) ->
   result (run test_client plain_otp_send) (respond gateway_timeout)
   = result (run test_client plain_sms_send) (respond gateway_timeout)) /\
  (result (run test_client plain_otp_send) (respond gateway_timeout)
   = result (run test_client plain_sms_send) (respond gateway_timeout) \/
   exists cls status details,
     result (run test_client plain_otp_send) (respond gateway_timeout) =
       Raise (Msg91 (Msg91Error cls (PStr (default_message plain_otp_send))
                       status details)) /\
     result (run test_client plain_sms_send) (respond gateway_timeout) =
       Raise (Msg91 (Msg91Error cls (PStr (default_message plain_sms_send))
                       status details))).
Proof.
  apply (same_policy_for_every_operation test_client plain_otp_send
           test_client plain_sms_send gateway_timeout);
    reflexivity.
Defined.

(** The same validation failure in [otp.send] and in [sms.send], and the
    same gateway timeout, where only the default message differs. *)
Example same_policy_runs :
  result (run test_client plain_otp_send)
    (respond (Response 400 false (Some validation_body) ""))
  = result (run test_client plain_sms_send)
      (respond (Response 400 false (Some validation_body) "")) /\
  result (run test_client plain_otp_send) (respond gateway_timeout)
  = Raise (Msg91 (Msg91Error APIError (PStr "OTP sending failed") (Some 504)
                    (Some (PDict {[ "raw_content" := PStr "<html>Gateway Timeout</html>" ]})))) /\
  result (run test_client plain_sms_send) (respond gateway_timeout)
  = Raise (Msg91 (Msg91Error APIError (PStr "SMS sending failed") (Some 504)
                    (Some (PDict {[ "raw_content" := PStr "<html>Gateway Timeout</html>" ]})))).
Proof. repeat split; reflexivity. Qed.

(** ** The fields of a request *)

Lemma lookup_if_insert_eq (b : bool) (k : string) (v : pyval) (m : gmap string pyval) :
  m !! k = None ->
  (if b then <[k := v]> m else m) !! k = if b then Some v else None.
Proof. intros H. destruct b; [by rewrite lookup_insert_eq | done]. Qed.

Lemma is_Some_if_insert (b : bool) (k k' : string) (v : pyval) (m : gmap string pyval) :
  is_Some ((if b then <[k := v]> m else m) !! k') -> k = k' \/ is_Some (m !! k').
Proof. destruct b; [by rewrite lookup_insert_is_Some' | by right]. Qed.

Lemma is_Some_match_insert {A : Type} (o : option A) (k k' : string) (f : A -> pyval)
    (m : gmap string pyval) :
  is_Some (match o with Some x => <[k := f x]> m | None => m end !! k') ->
  k = k' \/ is_Some (m !! k').
Proof. destruct o; [by rewrite lookup_insert_is_Some' | by right]. Qed.

Lemma truthy_opt_str (o : option string) :
  (if truthy (opt_str o) then Some (opt_str o) else None) = nonempty_field o.
Proof. destruct o as [s|]; simpl; [by destruct (String.eqb s "") | done]. Qed.

Lemma truthy_opt_int (o : option Z) :
  (if truthy (opt_int o) then Some (opt_int o) else None) = nonzero_field o.
Proof. destruct o as [z|]; simpl; [by destruct (Z.eqb z 0) | done]. Qed.

Lemma add_kwargs_empty (params : gmap string pyval) : add_kwargs ∅ params = params.
Proof. by rewrite add_kwargs_union, (left_id_L ∅ (∪)). Qed.

(** Walks a hypothesis [is_Some (fields !! key)] down the inserts that
    built [fields], closing each case by membership in a list of names. *)
Ltac walk_fields H :=
  repeat first
    [ apply is_Some_if_insert in H as [<- | H]
    | apply is_Some_match_insert in H as [<- | H]
    | apply lookup_insert_is_Some' in H as [<- | H] ];
  try (by apply lookup_empty_is_Some in H);
  try solve [repeat first [apply list_elem_of_here | apply list_elem_of_further]].

(** The query parameters [otp.send] builds before the extra parameters. *)
Lemma otp_send_base self mobile message sender otp otp_expiry otp_length :
  preflight_ok (OtpSend mobile message sender otp otp_expiry otp_length ∅) = true ->
  exists base : gmap string pyval,
    (forall kwargs net,
       issued (otp_send self mobile message sender otp otp_expiry otp_length kwargs) net
         = [Request GET "http://api.msg91.com/api/sendotp.php"
              (Some (add_kwargs kwargs base)) None None 30]) /\
    base !! "mobile" = Some (PStr mobile) /\
    base !! "message" = nonempty_field message /\
    base !! "sender" = nonempty_field sender /\
    base !! "otp" = nonempty_field otp /\
    base !! "otp_expiry" = nonzero_field otp_expiry /\
    base !! "otp_length" = nonzero_field otp_length /\
    (forall key, is_Some (base !! key) ->
       key ∈ standard_fields (OtpSend mobile message sender otp otp_expiry otp_length ∅)).
Proof.
  intros Hok. simpl in Hok.
  pose (p0 := <["mobile" := PStr mobile]>
                (<["authkey" := PStr (auth_key (http_client self))]> ∅)
              : gmap string pyval).
  pose (p1 := if truthy (opt_str message) then <["message" := opt_str message]> p0 else p0).
  pose (p2 := if truthy (opt_str sender) then <["sender" := opt_str sender]> p1 else p1).
  pose (p3 := if truthy (opt_str otp) then <["otp" := opt_str otp]> p2 else p2).
  pose (p4 := if truthy (opt_int otp_expiry)
              then <["otp_expiry" := opt_int otp_expiry]> p3 else p3).
  assert (Hlook :
    p4 !! "mobile" = Some (PStr mobile) /\
    p4 !! "message" = nonempty_field message /\
    p4 !! "sender" = nonempty_field sender /\
    p4 !! "otp" = nonempty_field otp /\
    p4 !! "otp_expiry" = nonzero_field otp_expiry /\
    p4 !! "otp_length" = None /\
    (forall key, is_Some (p4 !! key) ->
       key ∈ ["authkey"; "mobile"; "message"; "sender"; "otp"; "otp_expiry"; "otp_length"])).
  { subst p4 p3 p2 p1 p0. repeat split.
    - rewrite !lookup_if_insert_ne by done. by rewrite lookup_insert_eq.
    - rewrite !lookup_if_insert_ne by done.
      rewrite lookup_if_insert_eq, truthy_opt_str; [done|].
      by rewrite !lookup_insert_ne, lookup_empty.
    - rewrite !lookup_if_insert_ne by done.
      rewrite lookup_if_insert_eq, truthy_opt_str; [done|].
      by rewrite lookup_if_insert_ne, !lookup_insert_ne, lookup_empty.
    - rewrite !lookup_if_insert_ne by done.
      rewrite lookup_if_insert_eq, truthy_opt_str; [done|].
      by rewrite !lookup_if_insert_ne, !lookup_insert_ne, lookup_empty.
    - rewrite lookup_if_insert_eq, truthy_opt_int; [done|].
      by rewrite !lookup_if_insert_ne, !lookup_insert_ne, lookup_empty.
    - by rewrite !lookup_if_insert_ne, !lookup_insert_ne, lookup_empty.
    - intros key H. walk_fields H. }
  destruct Hlook as (Hmobile & Hmessage & Hsender & Hotp & Hexpiry & Hlength & Hdom).
  destruct otp_length as [n|]; simpl.
  - destruct (Z.eqb n 0) eqn:Hn; simpl in *.
    + exists p4. split; [|done]. intros kwargs net. unfold issued, otp_send.
      simpl. rewrite Hn. simpl. by rewrite bind_ret, get_exchange.
    + exists (<["otp_length" := PInt n]> p4).
      split.
      { intros kwargs net. unfold issued, otp_send.
        simpl. rewrite Hn. simpl. rewrite Hok. simpl.
        by rewrite bind_ret, get_exchange. }
      rewrite !lookup_insert_ne, lookup_insert_eq by done. repeat split; try done.
      intros key H. apply lookup_insert_is_Some' in H as [<- | H]; [|by apply Hdom].
      repeat first [apply list_elem_of_here | apply list_elem_of_further].
  - exists p4. split; [|done]. intros kwargs net. unfold issued, otp_send.
    by rewrite bind_ret, get_exchange.
Qed.

Lemma otp_verify_base self mobile otp :
  exists base : gmap string pyval,
    (forall kwargs net,
       issued (otp_verify self mobile otp kwargs) net
         = [Request GET "http://api.msg91.com/api/verifyRequestOTP.php"
              (Some (add_kwargs kwargs base)) None None 30]) /\
    base !! "mobile" = Some (PStr mobile) /\
    base !! "otp" = Some (PStr otp) /\
    (forall key, is_Some (base !! key) -> key ∈ standard_fields (OtpVerify mobile otp ∅)).
Proof.
  eexists. split.
  { intros kwargs net. unfold issued, otp_verify. by rewrite get_exchange. }
  repeat split; [by simplify_map_eq.. |].
  intros key H. walk_fields H.
Qed.

Lemma otp_resend_base self mobile retrytype :
  exists base : gmap string pyval,
    (forall kwargs net,
       issued (otp_resend self mobile retrytype kwargs) net
         = [Request GET "http://api.msg91.com/api/retryotp.php"
              (Some (add_kwargs kwargs base)) None None 30]) /\
    base !! "mobile" = Some (PStr mobile) /\
    base !! "retrytype" = Some (PStr retrytype) /\
    (forall key, is_Some (base !! key) ->
       key ∈ standard_fields (OtpResend mobile retrytype ∅)).
Proof.
  eexists. split.
  { intros kwargs net. unfold issued, otp_resend. by rewrite get_exchange. }
  repeat split; [by simplify_map_eq.. |].
  intros key H. walk_fields H.
Qed.

Lemma sms_send_base self mobile message sender route country flash unicode
    scheduled_datetime campaign :
  exists base : gmap string pyval,
    (forall kwargs net,
       issued (sms_send self mobile message sender route country flash unicode
                 scheduled_datetime campaign kwargs) net
         = [Request POST "http://api.msg91.com/api/v2/sendsms" None
              (Some (add_kwargs kwargs base))
              (Some (<["authkey" := auth_key (http_client self)]>
                       (<["Content-Type" := "application/json"]> ∅)))
              30]) /\
    base !! "message" = Some (PStr message) /\
    base !! "sender" = Some (PStr sender) /\
    base !! "route" = Some (PStr route) /\
    base !! "response" = Some (PStr "json") /\
    base !! "country" = PStr <$> country /\
    base !! "scheduledatetime" = nonempty_field scheduled_datetime /\
    base !! "campaign" = nonempty_field campaign /\
    (forall key, is_Some (base !! key) ->
       key ∈ standard_fields (SmsSend mobile message sender route country flash unicode
                                scheduled_datetime campaign ∅)).
Proof.
  eexists. split.
  { intros kwargs net. unfold issued, sms_send. by rewrite post_exchange. }
  repeat split.
  - rewrite !lookup_if_insert_ne, !lookup_match_insert_ne by done.
    by rewrite !lookup_insert_ne, lookup_insert_eq by done.
  - rewrite !lookup_if_insert_ne, !lookup_match_insert_ne by done.
    by rewrite !lookup_insert_ne, lookup_insert_eq by done.
  - rewrite !lookup_if_insert_ne, !lookup_match_insert_ne by done.
    by rewrite !lookup_insert_ne, lookup_insert_eq by done.
  - rewrite !lookup_if_insert_ne, !lookup_match_insert_ne by done.
    by rewrite lookup_insert_eq.
  - rewrite !lookup_if_insert_ne, !lookup_match_insert_ne by done.
    destruct country; simpl; [by rewrite lookup_insert_eq|].
    by rewrite !lookup_insert_ne, lookup_empty by done.
  - rewrite lookup_if_insert_ne by done.
    rewrite lookup_if_insert_eq, truthy_opt_str; [done|].
    rewrite !lookup_match_insert_ne by done.
    by rewrite !lookup_insert_ne, lookup_empty by done.
  - rewrite lookup_if_insert_eq, truthy_opt_str; [done|].
    rewrite lookup_if_insert_ne, !lookup_match_insert_ne by done.
    by rewrite !lookup_insert_ne, lookup_empty by done.
  - intros key H. walk_fields H.
Qed.

(** The request of a call, against the request of the same call without
    extra parameters. *)
Lemma call_base self c net req :
  issued (run self c) net = [req] ->
  exists base req0,
    req_fields req = kwargs_of c ∪ base /\
    (forall net0, issued (run self (without_extras c)) net0 = [req0]) /\
    req_fields req0 = base /\
    req_method req = req_method req0 /\
    req_url req = req_url req0 /\
    req_headers req = req_headers req0 /\
    req_timeout req = 30 /\
    (forall key, is_Some (base !! key) -> key ∈ standard_fields c).
Proof.
  intros Hreq. pose proof (issued_request _ _ _ _ Hreq) as [Hok _].
  destruct c as [mobile message sender otp otp_expiry otp_length kwargs
                | mobile otp kwargs | mobile retrytype kwargs
                | mobile message sender route country flash unicode sd campaign kwargs];
    simpl in Hreq |- *.
  - destruct (otp_send_base self mobile message sender otp otp_expiry otp_length Hok)
      as (base & Hiss & Hrest).
    rewrite Hiss in Hreq. injection Hreq as <-.
    eexists base, _. split; [by rewrite <- add_kwargs_union|].
    split; [intros net0; apply Hiss|]. simpl. rewrite add_kwargs_empty.
    repeat split; try done. apply Hrest.
  - destruct (otp_verify_base self mobile otp) as (base & Hiss & Hrest).
    rewrite Hiss in Hreq. injection Hreq as <-.
    eexists base, _. split; [by rewrite <- add_kwargs_union|].
    split; [intros net0; apply Hiss|]. simpl. rewrite add_kwargs_empty.
    repeat split; try done. apply Hrest.
  - destruct (otp_resend_base self mobile retrytype) as (base & Hiss & Hrest).
    rewrite Hiss in Hreq. injection Hreq as <-.
    eexists base, _. split; [by rewrite <- add_kwargs_union|].
    split; [intros net0; apply Hiss|]. simpl. rewrite add_kwargs_empty.
    repeat split; try done. apply Hrest.
  - destruct (sms_send_base self mobile message sender route country flash unicode
                sd campaign) as (base & Hiss & Hrest).
    rewrite Hiss in Hreq. injection Hreq as <-.
    eexists base, _. split; [by rewrite <- add_kwargs_union|].
    split; [intros net0; apply Hiss|]. simpl. rewrite add_kwargs_empty.
    repeat split; try done. apply Hrest.
Qed.

(** ** Extra parameters are merged last *)



(** The extras of the two sample calls reach their requests, over the
    authentication key and over the joined numbers. *)
Example overriding_runs :
  sent (run test_client override_otp_send) (refuse "timed out") "authkey"
    = Some (PStr "other_key") /\
  sent (run test_client override_otp_send) (refuse "timed out") "mobile"
    = Some (PStr "919999999999") /\
  sent (run test_client override_sms_send) (refuse "timed out") "mobiles"
    = Some (PStr "919000000003") /\
  sent (run test_client override_sms_send) (refuse "timed out") "sender"
    = Some (PStr "SENDER").
Proof. repeat split; reflexivity. Qed.

Lemma keyword_free_lookup names (kwargs : gmap string pyval) key :
  keyword_free names kwargs -> key ∈ names -> kwargs !! key = None.
Proof. unfold keyword_free. rewrite Forall_forall. auto. Qed.

Ltac in_names :=
  solve [repeat first [apply list_elem_of_here | apply list_elem_of_further]].

(** X7.  [otp.send] sends [mobile] as given and each optional argument only
    when it is given and not empty (a string) or not zero (a number): an
    empty [message], [sender] or [otp] and a zero [otp_expiry] are left out,
    and no [None] placeholder is sent. *)
Theorem otp_send_optional_fields self mobile message sender otp otp_expiry otp_length
    kwargs net req :
  issued (otp_send self mobile message sender otp otp_expiry otp_length kwargs) net
    = [req] ->
  keyword_free
    (parameters (OtpSend mobile message sender otp otp_expiry otp_length kwargs)) kwargs ->
  req_fields req !! "mobile" = Some (PStr mobile) /\
  req_fields req !! "message" = nonempty_field message /\
  req_fields req !! "sender" = nonempty_field sender /\
  req_fields req !! "otp" = nonempty_field otp /\
  req_fields req !! "otp_expiry" = nonzero_field otp_expiry /\
  req_fields req !! "otp_length" = nonzero_field otp_length.
Proof.
  intros Hreq Hfree.
  pose proof (issued_request self
    (OtpSend mobile message sender otp otp_expiry otp_length kwargs) net req Hreq)
    as [Hok _].
  destruct (otp_send_base self mobile message sender otp otp_expiry otp_length Hok)
    as (base & Hiss & Hmob & Hmsg & Hsnd & Hotp & Hexp & Hlen & _).
  rewrite Hiss in Hreq. injection Hreq as <-. unfold req_fields; simpl.
  rewrite !add_kwargs_standard
    by (apply (keyword_free_lookup _ _ _ Hfree); in_names).
  done.
Qed.

Lemma otp_send_optional_fields_witness :
  req_fields sparse_otp_request !! "mobile" = Some (PStr "919999999999") /\
  req_fields sparse_otp_request !! "message" = nonempty_field (Some "") /\
  req_fields sparse_otp_request !! "sender" = nonempty_field (Some "MYAPP") /\
  req_fields sparse_otp_request !! "otp" = nonempty_field None /\
  req_fields sparse_otp_request !! "otp_expiry" = nonzero_field (Some 0) /\
  req_fields sparse_otp_request !! "otp_length" = nonzero_field (Some 6).
Proof.
  apply (otp_send_optional_fields test_client "919999999999" (Some "") (Some "MYAPP")
           None (Some 0) (Some 6) {[ "extra_param" := PStr "value" ]}
           (respond (Response 200 true (Some success_body) "")) sparse_otp_request).
  - vm_compute; reflexivity.
  - simpl. repeat constructor.
Defined.

(** X8.  [otp.verify] and [otp.resend] check nothing locally: whatever the
    arguments, empty strings and unknown retry types included, the request
    is issued with [mobile] and [otp], or [mobile] and [retrytype], as
    given. *)
Theorem verify_and_resend_send_as_given self mobile otp retrytype kwargs kwargs' net :
  keyword_free (parameters (OtpVerify mobile otp kwargs)) kwargs ->
  keyword_free (parameters (OtpResend mobile retrytype kwargs')) kwargs' ->
  (exists req,
     issued (otp_verify self mobile otp kwargs) net = [req] /\
     req_fields req !! "mobile" = Some (PStr mobile) /\
     req_fields req !! "otp" = Some (PStr otp)) /\
  (exists req,
     issued (otp_resend self mobile retrytype kwargs') net = [req] /\
     req_fields req !! "mobile" = Some (PStr mobile) /\
     req_fields req !! "retrytype" = Some (PStr retrytype)).
Proof.
  intros Hfree Hfree'. split.
  - destruct (otp_verify_base self mobile otp) as (base & Hiss & Hmob & Hotp & _).
    eexists. split; [apply Hiss|]. unfold req_fields; simpl.
    rewrite !add_kwargs_standard
      by (apply (keyword_free_lookup _ _ _ Hfree); in_names).
    done.
  - destruct (otp_resend_base self mobile retrytype) as (base & Hiss & Hmob & Hretry & _).
    eexists. split; [apply Hiss|]. unfold req_fields; simpl.
    rewrite !add_kwargs_standard
      by (apply (keyword_free_lookup _ _ _ Hfree'); in_names).
    done.
Qed.

Lemma verify_and_resend_send_as_given_witness :
  (exists req,
     issued (otp_verify test_client "" "" ∅) (refuse "timed out") = [req] /\
     req_fields req !! "mobile" = Some (PStr "") /\
     req_fields req !! "otp" = Some (PStr "")) /\
  (exists req,
     issued (otp_resend test_client "" "carrier-pigeon" ∅)
       (refuse "timed out") = [req] /\
     req_fields req !! "mobile" = Some (PStr "") /\
     req_fields req !! "retrytype" = Some (PStr "carrier-pigeon")).
Proof.
  apply (verify_and_resend_send_as_given test_client "" "" "carrier-pigeon" ∅ ∅
           (refuse "timed out"));
    simpl; repeat constructor.
Defined.

(** X9.  A request carries no field of the library's own invention: every
    key of its query parameters or JSON payload is one of the operation's
    standard keys or the name of an extra keyword parameter. *)
Theorem only_standard_and_extra_fields self c net req key :
  issued (run self c) net = [req] ->
  is_Some (req_fields req !! key) ->
  key ∈ standard_fields c \/ is_Some (kwargs_of c !! key).
Proof.
  intros Hreq Hkey.
  destruct (call_base _ _ _ _ Hreq) as (base & req0 & Hfields & _ & _ & _ & _ & _ & _ & Hdom).
  rewrite Hfields in Hkey. apply lookup_union_is_Some in Hkey as [H|H]; auto.
Qed.

Lemma only_standard_and_extra_fields_witness :
  "extra_param" ∈ standard_fields sparse_otp_send \/
  is_Some (kwargs_of sparse_otp_send !! "extra_param").
Proof.
  apply (only_standard_and_extra_fields test_client sparse_otp_send
           (respond (Response 200 true (Some success_body) ""))
           sparse_otp_request "extra_param").
  - vm_compute; reflexivity.
  - vm_compute. eexists; reflexivity.
Defined.

(** X10.  The extra keyword parameters change the fields of a request and
    nothing else: the request of a call has the method, the URL, the headers
    and the timeout of 30 of the same call without extras, and its fields
    are the extras laid over that call's fields. *)
Theorem extras_laid_over_plain_call self c net req :
  issued (run self c) net = [req] ->
  exists req0,
    (forall net0, issued (run self (without_extras c)) net0 = [req0]) /\
    req_fields req = kwargs_of c ∪ req_fields req0 /\
    req_method req = req_method req0 /\
    req_url req = req_url req0 /\
    req_headers req = req_headers req0 /\
    req_timeout req = 30 /\ req_timeout req0 = 30.
Proof.
  intros Hreq.
  destruct (call_base _ _ _ _ Hreq)
    as (base & req0 & Hfields & Hplain & Hbase & Hm & Hu & Hh & Ht & _).
  exists req0. rewrite Hbase. repeat split; try done.
  destruct (call_base _ _ _ _ (Hplain net))
    as (_ & _ & _ & _ & _ & _ & _ & _ & Ht0 & _).
  done.
Qed.

Lemma extras_laid_over_plain_call_witness :
  exists req0,
    (forall net0, issued (run test_client (without_extras sparse_otp_send)) net0 = [req0]) /\
    req_fields sparse_otp_request = kwargs_of sparse_otp_send ∪ req_fields req0 /\
    req_method sparse_otp_request = req_method req0 /\
    req_url sparse_otp_request = req_url req0 /\
    req_headers sparse_otp_request = req_headers req0 /\
    req_timeout sparse_otp_request = 30 /\ req_timeout req0 = 30.
Proof.
  apply (extras_laid_over_plain_call test_client sparse_otp_send
           (respond (Response 200 true (Some success_body) ""))).
  vm_compute; reflexivity.
Defined.

(** X11.  [sms.send] sends [message], [sender] and [route] as given and
    [response] as ["json"]; it sends [country] whenever it is not [None],
    the empty string included, but [campaign] and the schedule only when not
    empty, the schedule under the key ["scheduledatetime"] and never under
    ["scheduled_datetime"]. *)
Theorem sms_send_fields self mobile message sender route country flash unicode
    scheduled_datetime campaign kwargs net :
  keyword_free
    (parameters (SmsSend mobile message sender route country flash unicode
                   scheduled_datetime campaign kwargs)) kwargs ->
  kwargs !! "response" = None ->
  kwargs !! "scheduledatetime" = None ->
  exists req,
    issued (sms_send self mobile message sender route country flash unicode
              scheduled_datetime campaign kwargs) net = [req] /\
    req_fields req !! "message" = Some (PStr message) /\
    req_fields req !! "sender" = Some (PStr sender) /\
    req_fields req !! "route" = Some (PStr route) /\
    req_fields req !! "response" = Some (PStr "json") /\
    req_fields req !! "country" = PStr <$> country /\
    req_fields req !! "campaign" = nonempty_field campaign /\
    req_fields req !! "scheduledatetime" = nonempty_field scheduled_datetime /\
    req_fields req !! "scheduled_datetime" = None.
Proof.
  intros Hfree Hresp Hsched.
  destruct (sms_send_base self mobile message sender route country flash unicode
              scheduled_datetime campaign)
    as (base & Hiss & Hmsg & Hsnd & Hroute & Hjson & Hcountry & Hsd & Hcamp & Hdom).
  eexists. split; [apply Hiss|]. unfold req_fields; simpl.
  rewrite !add_kwargs_standard
    by (done || apply (keyword_free_lookup _ _ _ Hfree); in_names).
  repeat split; try done.
  destruct (base !! "scheduled_datetime") as [v|] eqn:E; [|done].
  assert (is_Some (base !! "scheduled_datetime")) as H%Hdom by eauto.
  simpl in H. rewrite !elem_of_cons, elem_of_nil in H.
  repeat destruct H as [H|H]; done.
Qed.

Lemma sms_send_fields_witness :
  exists req,
    issued (sms_send test_client two_numbers "Test SMS message" "SENDER" "4"
              (Some "") None None (Some "2024-01-01 10:00:00") (Some "") ∅)
      (refuse "timed out") = [req] /\
    req_fields req !! "message" = Some (PStr "Test SMS message") /\
    req_fields req !! "sender" = Some (PStr "SENDER") /\
    req_fields req !! "route" = Some (PStr "4") /\
    req_fields req !! "response" = Some (PStr "json") /\
    req_fields req !! "country" = PStr <$> Some "" /\
    req_fields req !! "campaign" = nonempty_field (Some "") /\
    req_fields req !! "scheduledatetime" = nonempty_field (Some "2024-01-01 10:00:00") /\
    req_fields req !! "scheduled_datetime" = None.
Proof.
  apply (sms_send_fields test_client two_numbers "Test SMS message" "SENDER" "4"
           (Some "") None None (Some "2024-01-01 10:00:00") (Some "") ∅
           (refuse "timed out")).
  - simpl. repeat constructor.
  - reflexivity.
  - reflexivity.
Defined.

(** ** Mobile numbers *)

(** X12.  A list of one number and the bare number are interchangeable: in
    [sms.send] they give the same run, in [sms.send_template] the same
    payload. *)
Theorem singleton_list_is_string self number message sender route country flash unicode
    scheduled_datetime campaign kwargs net
    template_id variables sender_id short_url t_kwargs :
  sms_send self (MobileList [number]) message sender route country flash unicode
    scheduled_datetime campaign kwargs net []
  = sms_send self (MobileStr number) message sender route country flash unicode
      scheduled_datetime campaign kwargs net [] /\
  send_template_payload template_id (MobileList [number]) variables sender_id
    short_url t_kwargs
  = send_template_payload template_id (MobileStr number) variables sender_id
      short_url t_kwargs.
Proof. split; reflexivity. Qed.

Lemma split_commas_cons c s :
  Ascii.eqb c "," = false ->
  split_commas (String c s) =
    match split_commas s with
    | piece :: pieces => String c piece :: pieces
    | [] => [String c EmptyString]
    end.
Proof. intros H. simpl. by rewrite H. Qed.

Lemma split_commas_piece x rest :
  comma_free x = true ->
  split_commas (x +:+ String "," rest) = x :: split_commas rest.
Proof.
  induction x as [|c x IH]; simpl; [done|].
  intros [Hc Hx]%andb_prop. apply negb_true_iff in Hc.
  change (String c x +:+ String "," rest) with (String c (x +:+ String "," rest)).
  simpl. rewrite Hc. by rewrite (IH Hx).
Qed.

Lemma split_commas_whole x : comma_free x = true -> split_commas x = [x].
Proof.
  induction x as [|c x IH]; simpl; [done|].
  intros [Hc Hx]%andb_prop. apply negb_true_iff in Hc.
  by rewrite Hc, (IH Hx).
Qed.

Lemma split_commas_concat l :
  l <> [] ->
  Forall (fun number => comma_free number = true) l ->
  split_commas (String.concat "," l) = l.
Proof.
  induction l as [|x l IH]; [done|]. intros _ Hfree.
  apply Forall_cons in Hfree as [Hx Hl].
  destruct l as [|y l].
  - simpl. by apply split_commas_whole.
  - change (String.concat "," (x :: y :: l))
      with (x +:+ String "," (String.concat "," (y :: l))).
    rewrite (split_commas_piece _ _ Hx). f_equal. by apply IH.
Qed.

(** X13.  The [mobiles] field of [sms.send] can be read back: for a list
    that is not empty, of numbers without a comma, the pieces of the field
    between its commas are the numbers, in order. *)
Theorem mobiles_read_back self l message sender route country flash unicode
    scheduled_datetime campaign kwargs net :
  kwargs !! "mobiles" = None ->
  l <> [] ->
  Forall (fun number => comma_free number = true) l ->
  exists field,
    sent (sms_send self (MobileList l) message sender route country flash unicode
            scheduled_datetime campaign kwargs) net "mobiles" = Some (PStr field) /\
    split_commas field = l.
Proof.
  intros Hfree Hne Hl.
  destruct (sms_send_request self (MobileList l) message sender route country flash
              unicode scheduled_datetime campaign kwargs net)
    as (base & Hreq & _ & Hmob & _).
  exists (String.concat "," l). split; [|by apply split_commas_concat].
  unfold sent. rewrite Hreq. unfold req_fields; simpl.
  by rewrite add_kwargs_standard.
Qed.

Lemma mobiles_read_back_witness :
  exists field,
    sent (sms_send test_client (MobileList ["919000000001"; "919000000002"])
            "Test SMS message" "SENDER" "4" None None None None None ∅)
      (refuse "timed out") "mobiles" = Some (PStr field) /\
    split_commas field = ["919000000001"; "919000000002"].
Proof.
  apply (mobiles_read_back test_client ["919000000001"; "919000000002"]
           "Test SMS message" "SENDER" "4" None None None None None ∅
           (refuse "timed out")).
  - reflexivity.
  - discriminate.
  - repeat constructor.
Defined.

(** Without numbers the reading is lost: the empty list, the list of one
    empty string and the empty string all send the same empty field. *)
Example empty_mobiles_collide :
  sent (sms_send test_client (MobileList []) "m" "s" "4" None None None None None ∅)
    (refuse "timed out") "mobiles" = Some (PStr "") /\
  sent (sms_send test_client (MobileList [""]) "m" "s" "4" None None None None None ∅)
    (refuse "timed out") "mobiles" = Some (PStr "") /\
  sent (sms_send test_client (MobileStr "") "m" "s" "4" None None None None None ∅)
    (refuse "timed out") "mobiles" = Some (PStr "").
Proof. repeat split; reflexivity. Qed.

(** X14.  [_format_recipients] works number by number: the recipients of
    two lists put end to end are the recipients of the first followed by
    those of the second, and no numbers give no recipients. *)
Theorem recipients_of_concatenation l1 l2 variables :
  _format_recipients (MobileList (l1 ++ l2)) variables
  = (_format_recipients (MobileList l1) variables
     ++ _format_recipients (MobileList l2) variables)%list /\
  _format_recipients (MobileList []) variables = [].
Proof.
  rewrite !format_recipients_map. simpl. by rewrite fmap_app.
Qed.

(** ** Templates and reports *)

(** X15.  [sms.send_template] sends [template_id] as given, sends
    [sender_id] under the key ["sender"] only when it is given and not
    empty, never sends a key ["sender_id"], and writes no key besides
    [template_id], [recipients], [sender], [short_url] and the extras. *)
Theorem send_template_fields template_id mobile variables sender_id short_url kwargs :
  keyword_free send_template_parameters kwargs ->
  kwargs !! "sender" = None ->
  let payload :=
    send_template_payload template_id mobile variables sender_id short_url kwargs in
  payload !! "template_id" = Some (PStr template_id) /\
  payload !! "sender" = nonempty_field sender_id /\
  payload !! "sender_id" = None /\
  (forall key, is_Some (payload !! key) ->
     key ∈ ["template_id"; "recipients"; "sender"; "short_url"] \/
     is_Some (kwargs !! key)).
Proof.
  intros Hfree Hsender payload. subst payload. unfold send_template_payload.
  rewrite !add_kwargs_standard
    by (done || apply (keyword_free_lookup _ _ _ Hfree); in_names).
  repeat split.
  - rewrite lookup_match_insert_ne, lookup_if_insert_ne by done.
    by rewrite lookup_insert_ne, lookup_insert_eq.
  - rewrite lookup_match_insert_ne by done.
    rewrite lookup_if_insert_eq, truthy_opt_str; [done|].
    by rewrite !lookup_insert_ne, lookup_empty.
  - rewrite lookup_match_insert_ne, lookup_if_insert_ne by done.
    by rewrite !lookup_insert_ne, lookup_empty.
  - intros key H. rewrite add_kwargs_union in H.
    apply lookup_union_is_Some in H as [H|H]; [by right | left].
    walk_fields H.
Qed.

Lemma send_template_fields_witness :
  let payload :=
    send_template_payload "template_1" two_numbers None (Some "") (Some true)
      {[ "realTimeResponse" := PStr "1" ]} in
  payload !! "template_id" = Some (PStr "template_1") /\
  payload !! "sender" = nonempty_field (Some "") /\
  payload !! "sender_id" = None /\
  (forall key, is_Some (payload !! key) ->
     key ∈ ["template_id"; "recipients"; "sender"; "short_url"] \/
     is_Some (({[ "realTimeResponse" := PStr "1" ]} : gmap string pyval) !! key)).
Proof.
  apply (send_template_fields "template_1" two_numbers None (Some "") (Some true)
           {[ "realTimeResponse" := PStr "1" ]}).
  - unfold send_template_parameters. repeat constructor.
  - reflexivity.
Defined.

(** X16.  The mapping [get_logs] posts and [get_analytics] sends holds
    [start_date] and [end_date] only when given and not empty, and besides
    them exactly the extras; with no date and no extra it is empty. *)
Theorem date_filter_fields start_date end_date kwargs :
  keyword_free ["start_date"; "end_date"] kwargs ->
  date_filter start_date end_date kwargs !! "start_date" = nonempty_field start_date /\
  date_filter start_date end_date kwargs !! "end_date" = nonempty_field end_date /\
  (forall key, key <> "start_date" -> key <> "end_date" ->
     date_filter start_date end_date kwargs !! key = kwargs !! key) /\
  (nonempty_field start_date = None -> nonempty_field end_date = None ->
   date_filter start_date end_date kwargs = kwargs).
Proof.
  intros Hfree. unfold date_filter.
  assert (Hs : kwargs !! "start_date" = None)
    by (apply (keyword_free_lookup _ _ _ Hfree); in_names).
  assert (He : kwargs !! "end_date" = None)
    by (apply (keyword_free_lookup _ _ _ Hfree); in_names).
  assert (Hstart : forall (m : gmap string pyval),
            (if truthy (opt_str end_date) then <["end_date" := opt_str end_date]> m else m)
              !! "start_date" = m !! "start_date")
    by (intros m; by rewrite lookup_if_insert_ne).
  repeat split.
  - rewrite add_kwargs_standard, Hstart by done.
    by rewrite lookup_if_insert_eq, truthy_opt_str.
  - rewrite add_kwargs_standard by done.
    rewrite lookup_if_insert_eq, truthy_opt_str; [done|].
    by rewrite lookup_if_insert_ne.
  - intros key Hks Hke. rewrite add_kwargs_union, lookup_union.
    rewrite !lookup_if_insert_ne, lookup_empty by done.
    by destruct (kwargs !! key).
  - rewrite <- !truthy_opt_str. intros H1 H2.
    destruct (truthy (opt_str start_date)); [done|].
    destruct (truthy (opt_str end_date)); [done|].
    by rewrite add_kwargs_union, (right_id_L ∅ (∪)).
Qed.

Lemma date_filter_fields_witness :
  date_filter (Some "2024-01-01") (Some "") {[ "page" := PInt 2 ]} !! "start_date"
    = nonempty_field (Some "2024-01-01") /\
  date_filter (Some "2024-01-01") (Some "") {[ "page" := PInt 2 ]} !! "end_date"
    = nonempty_field (Some "") /\
  (forall key, key <> "start_date" -> key <> "end_date" ->
     date_filter (Some "2024-01-01") (Some "") {[ "page" := PInt 2 ]} !! key
       = ({[ "page" := PInt 2 ]} : gmap string pyval) !! key) /\
  (nonempty_field (Some "2024-01-01") = None -> nonempty_field (Some "") = None ->
   date_filter (Some "2024-01-01") (Some "") {[ "page" := PInt 2 ]}
     = {[ "page" := PInt 2 ]}).
Proof.
  apply (date_filter_fields (Some "2024-01-01") (Some "") {[ "page" := PInt 2 ]}).
  repeat constructor.
Defined.

(** ** What holds of the classification and of the length check *)

(** X17.  On a failing response whose body is not a mapping, or whose [type]
    field is absent or a string, the call raises a library error with the
    response's status, the body's [message] field or the operation's default,
    and the body as details; its class is [AuthenticationError] exactly for
    status 401, [ValidationError] exactly for another status that is 400 or
    comes with a [type] equal to ["validation"] up to case, and [APIError]
    in every other case. *)
Theorem classification_of_text_typed_failures self c net req r :
  issued (run self c) net = [req] ->
  net req = Return r ->
  is_success r = false ->
  type_is_text (parsed_body r) ->
  exists cls,
    result (run self c) net =
      Raise (Msg91 (Msg91Error cls
                      (message_of (default_message c) (parsed_body r))
                      (Some (status_code r)) (Some (parsed_body r)))) /\
    (cls = AuthenticationError <-> status_code r = 401) /\
    (cls = ValidationError <->
       status_code r <> 401 /\
       (status_code r = 400 \/ validation_marker (parsed_body r))) /\
    (cls = APIError <->
       status_code r <> 401 /\ status_code r <> 400 /\
       ~ validation_marker (parsed_body r)).
Proof.
  intros Hreq Hnet Hok [t Ht]%error_type_of_text.
  rewrite (failing_response_result _ _ _ _ _ Hreq Hnet Hok), Ht.
  eexists. split; [reflexivity|].
  pose proof (error_type_validation _ _ Ht) as Hmark.
  unfold error_class_for.
  destruct (Z.eqb_spec (status_code r) 401) as [H401|H401]; simpl.
  { repeat split; try done; intros H; by destruct H. }
  destruct (Z.eqb_spec (status_code r) 400) as [H400|H400]; simpl.
  { repeat split; try done; try (by left); intros H; by destruct H as (_ & ? & _). }
  destruct (String.eqb t "validation").
  - assert (validation_marker (parsed_body r)) as Hm by by apply Hmark.
    repeat split; try done; try (by right). intros (_ & _ & H). by destruct H.
  - assert (~ validation_marker (parsed_body r)) as Hm
      by (intros Hm%Hmark; discriminate).
    repeat split; try done. intros (_ & [?|?]); done.
Qed.

Lemma classification_of_text_typed_failures_witness :
  exists cls,
    result (run test_client plain_otp_send)
      (respond (Response 422 false (Some validation_body) "")) =
      Raise (Msg91 (Msg91Error cls
                      (message_of (default_message plain_otp_send)
                         (parsed_body (Response 422 false (Some validation_body) "")))
                      (Some (status_code (Response 422 false (Some validation_body) "")))
                      (Some (parsed_body (Response 422 false (Some validation_body) ""))))) /\
    (cls = AuthenticationError <->
       status_code (Response 422 false (Some validation_body) "") = 401) /\
    (cls = ValidationError <->
       status_code (Response 422 false (Some validation_body) "") <> 401 /\
       (status_code (Response 422 false (Some validation_body) "") = 400 \/
        validation_marker (parsed_body (Response 422 false (Some validation_body) "")))) /\
    (cls = APIError <->
       status_code (Response 422 false (Some validation_body) "") <> 401 /\
       status_code (Response 422 false (Some validation_body) "") <> 400 /\
       ~ validation_marker (parsed_body (Response 422 false (Some validation_body) ""))).
Proof.
  apply (classification_of_text_typed_failures test_client plain_otp_send
           (respond (Response 422 false (Some validation_body) ""))
           plain_otp_request (Response 422 false (Some validation_body) ""));
    first [reflexivity | exact I].
Defined.

(** X18.  A given [otp_length] other than zero is checked before anything is
    sent: outside 4..9 the call raises [ValueError] and issues no request;
    inside, it issues its request with that length as [otp_length]. *)
Theorem nonzero_otp_length_is_checked self mobile message sender otp otp_expiry n
    kwargs net :
  n <> 0 ->
  keyword_free
    (parameters (OtpSend mobile message sender otp otp_expiry (Some n) kwargs)) kwargs ->
  (n < 4 \/ 9 < n ->
   otp_send self mobile message sender otp otp_expiry (Some n) kwargs net []
     = ([], Raise (ValueError "OTP length must be between 4 and 9"))) /\
  (4 <= n <= 9 ->
   exists req,
     issued (otp_send self mobile message sender otp otp_expiry (Some n) kwargs) net
       = [req] /\
     req_fields req !! "otp_length" = Some (PInt n)).
Proof.
  intros Hn Hfree. split.
  - intros Hrange.
    apply (run_rejected self
             (OtpSend mobile message sender otp otp_expiry (Some n) kwargs) net).
    simpl. apply orb_false_iff. split; [by apply Z.eqb_neq|].
    apply andb_false_iff. destruct Hrange; [left | right]; by apply Z.leb_gt.
  - intros Hrange.
    assert (Hok : preflight_ok
              (OtpSend mobile message sender otp otp_expiry (Some n) ∅) = true).
    { simpl. apply orb_true_iff. right. apply andb_true_iff.
      split; apply Z.leb_le; lia. }
    destruct (otp_send_base self mobile message sender otp otp_expiry (Some n) Hok)
      as (base & Hiss & _ & _ & _ & _ & _ & Hlen & _).
    eexists. split; [apply Hiss|]. unfold req_fields; simpl.
    rewrite add_kwargs_standard
      by (apply (keyword_free_lookup _ _ _ Hfree); in_names).
    rewrite Hlen. simpl. by destruct (Z.eqb_spec n 0).
Qed.

Lemma nonzero_otp_length_is_checked_witness :
  (-1 < 4 \/ 9 < -1 ->
   otp_send test_client "919999999999" None None None None (Some (-1)) ∅
     (refuse "timed out") []
     = ([], Raise (ValueError "OTP length must be between 4 and 9"))) /\
  (4 <= -1 <= 9 ->
   exists req,
     issued (otp_send test_client "919999999999" None None None None (Some (-1)) ∅)
       (refuse "timed out") = [req] /\
     req_fields req !! "otp_length" = Some (PInt (-1))).
Proof.
  apply (nonzero_otp_length_is_checked test_client "919999999999" None None None None
           (-1) ∅ (refuse "timed out")).
  - discriminate.
  - simpl. repeat constructor.
Defined.
